(** * Grade calculator (ESPRIT): the averaging core of [script.js]

    The source file holds two programs that implement the same grading
    policy:

    - a plain JavaScript page ([calculerMoyenne], [getStyleMoyenne],
      [updateStats]) whose subject average is a two-decimal display string;
    - a React component ([calculateAverage], [getStyleParams] and the
      computed values [totalCoef], [totalPoints], [generalAvg],
      [validatedCount], [dangerCount]) whose subject average is a number.

    Both are embedded here as functions over JavaScript values.  Numbers
    are IEEE 754 binary64 values, written with the standard library's
    [spec_float] (the specification that Rocq's primitive floats obey:
    one NaN, signed zeros, signed infinities and finite values
    [(-1)^s * m * 2^e]) at precision 53 and maximal exponent 1024, so that
    every operation of the program is computed exactly as an engine
    computes it.

    What the model fixes:
    - a field of an entry is [undefined], [null], a boolean, a number or a
      string; arrays and nested objects are left out;
    - strings are sequences of code units below 256, so the only white
      space is TAB, LF, VT, FF, CR, SP and NBSP;
    - a decimal literal, in the source or in a string, is rounded to the
      nearest number, ties to even, however many digits it has;
    - the two counters of [updateStats] and the lengths of the filtered
      arrays are natural numbers;
    - [updateStats] is a function from the state of the page (the [grades]
      array, the three texts, the colour) to its next state;
    - a row of the table is the text assigned to its [innerHTML], with the
      values that filled the template; what a browser builds from the text
      is left out;
    - a saved item is the array of entries that was serialised. *)

From Stdlib Require Import ZArith NArith List Bool String Ascii Lia.
From Stdlib Require Import Decimal DecimalString Floats.
Import ListNotations.

Local Open Scope string_scope.
Local Open Scope Z_scope.

(** ** The JavaScript runtime the program relies on *)

Module Js.

(** *** Number values *)

Definition prec : Z := 53.
Definition emax : Z := 1024.

Definition number : Set := spec_float.

Definition nan : number := S754_nan.
Definition zero : number := S754_zero false.
Definition neg_zero : number := S754_zero true.

Definition add : number -> number -> number := SFadd prec emax.
Definition mul : number -> number -> number := SFmul prec emax.
Definition div : number -> number -> number := SFdiv prec emax.

(** The relational operators go through the abstract operation
    [IsLessThan], which is undefined ([None]) as soon as one side is NaN;
    [a < b] and [a > b] hold when it answers true, [a >= b] when the
    answer of [a < b] is false (and defined). *)
Definition lt (a b : number) : bool :=
  match SFcompare a b with Some Lt => true | _ => false end.

Definition gt (a b : number) : bool := lt b a.

Definition ge (a b : number) : bool :=
  match SFcompare a b with Some (Eq | Gt) => true | _ => false end.

(** Strict equality [===] on two numbers. *)
Definition num_eq (a b : number) : bool := SFeqb a b.

Definition is_nan (x : number) : bool :=
  match x with S754_nan => true | _ => false end.

(** [ToBoolean] on a number: NaN and both zeros are falsy. *)
Definition truthy (x : number) : bool :=
  match x with
  | S754_nan | S754_zero _ => false
  | _ => true
  end.

(** [x || d] on numbers. *)
Definition or_else (x d : number) : number := if truthy x then x else d.

(** The Number value of the decimal [(-1)^neg * m * 10^e10]: the binary64
    value nearest to it, ties to even.  A non-negative exponent gives an
    integer, rounded by [binary_round]; a negative one gives a quotient of
    two integers, divided with the standard library's division core, which
    keeps enough bits of the quotient and the position of the remainder. *)
Definition of_decimal (neg : bool) (m : N) (e10 : Z) : number :=
  match m with
  | N0 => S754_zero neg
  | Npos p =>
      match e10 with
      | Zneg k =>
          let '(q, e, l) :=
            SFdiv_core_binary prec emax (Zpos p) 0 (Zpos (10 ^ k)) 0 in
          binary_round_aux prec emax neg q e l
      | _ => binary_round prec emax neg (p * Z.to_pos (10 ^ e10)) 0
      end
  end.

Definition of_N (n : N) : number := of_decimal false n 0.

(** *** Scanning numeric literals *)

Definition code (c : ascii) : N := N_of_ascii c.

Definition is_digit (c : ascii) : bool :=
  ((48 <=? code c) && (code c <=? 57))%N.

Definition digit_value (c : ascii) : N := (code c - 48)%N.

(** [WhiteSpace] and [LineTerminator] code units below 256: TAB, LF, VT,
    FF, CR, SP and NBSP. *)
Definition is_white (c : ascii) : bool :=
  let n := code c in
  ((9 <=? n) && (n <=? 13) || (n =? 32) || (n =? 160))%N.

Fixpoint trim_start (s : string) : string :=
  match s with
  | String c s' => if is_white c then trim_start s' else s
  | EmptyString => s
  end.

Fixpoint all_white (s : string) : bool :=
  match s with
  | String c s' => is_white c && all_white s'
  | EmptyString => true
  end.

(** [DecimalDigits], read greedily: the value accumulated on top of [acc],
    how many digits were read, and what follows them. *)
Fixpoint scan_digits (s : string) (acc : N) (cnt : Z) : N * Z * string :=
  match s with
  | String c s' =>
      if is_digit c
      then scan_digits s' (10 * acc + digit_value c)%N (cnt + 1)
      else (acc, cnt, s)
  | EmptyString => (acc, cnt, s)
  end.

Definition scan_sign (s : string) : bool * string :=
  match s with
  | String "+" s' => (false, s')
  | String "-" s' => (true, s')
  | _ => (false, s)
  end.

(** [ExponentPart], optional: it is taken only when it is complete, [e] or
    [E], an optional sign and at least one digit. *)
Definition scan_exponent (s : string) : Z * string :=
  match s with
  | String c s1 =>
      if (code c =? 101)%N || (code c =? 69)%N then
        let '(neg, s2) := scan_sign s1 in
        let '(v, n, rest) := scan_digits s2 0%N 0 in
        if n =? 0 then (0, s)
        else ((if neg then - Z.of_N v else Z.of_N v), rest)
      else (0, s)
  | EmptyString => (0, s)
  end.

Fixpoint strip_prefix (p s : string) : option string :=
  match p, s with
  | EmptyString, _ => Some s
  | String a p', String b s' =>
      if Ascii.eqb a b then strip_prefix p' s' else None
  | String _ _, EmptyString => None
  end.

Variant literal : Set :=
  | LitInfinity
  | LitDecimal (m : N) (e10 : Z).

(** The longest prefix that is a [StrUnsignedDecimalLiteral]:
    [Infinity], [digits . digits? exp?], [. digits exp?] or [digits exp?]. *)
Definition scan_unsigned (s : string) : option (literal * string) :=
  match strip_prefix "Infinity" s with
  | Some rest => Some (LitInfinity, rest)
  | None =>
      let '(i, ni, s1) := scan_digits s 0%N 0 in
      match s1 with
      | String "." s2 =>
          let '(m, nf, s3) := scan_digits s2 i 0 in
          if (ni =? 0) && (nf =? 0) then None
          else
            let '(e, rest) := scan_exponent s3 in
            Some (LitDecimal m (e - nf), rest)
      | _ =>
          if ni =? 0 then None
          else
            let '(e, rest) := scan_exponent s1 in
            Some (LitDecimal i e, rest)
      end
  end.

Definition literal_value (neg : bool) (l : literal) : number :=
  match l with
  | LitInfinity => S754_infinity neg
  | LitDecimal m e => of_decimal neg m e
  end.

(** The longest prefix that is a [StrDecimalLiteral] (an optional sign and
    an unsigned literal), with its value and the rest of the string. *)
Definition scan_decimal (s : string) : option (number * string) :=
  let '(neg, u) := scan_sign s in
  match scan_unsigned u with
  | Some (l, rest) => Some (literal_value neg l, rest)
  | None => None
  end.

(** [parseFloat] on a string: leading white space is skipped, the longest
    decimal literal is read, whatever follows is ignored. *)
Definition parseFloat_string (s : string) : number :=
  match scan_decimal (trim_start s) with
  | Some (x, _) => x
  | None => nan
  end.

(** Digits of a [NonDecimalIntegerLiteral] in base [b]. *)
Definition radix_digit (b : N) (c : ascii) : option N :=
  let n := code c in
  let v :=
    if ((48 <=? n) && (n <=? 57))%N then Some (n - 48)%N
    else if ((97 <=? n) && (n <=? 102))%N then Some (n - 87)%N
    else if ((65 <=? n) && (n <=? 70))%N then Some (n - 55)%N
    else None in
  match v with
  | Some d => if (d <? b)%N then Some d else None
  | None => None
  end.

Fixpoint scan_radix (b : N) (s : string) (acc : N) (cnt : Z)
  : N * Z * string :=
  match s with
  | String c s' =>
      match radix_digit b c with
      | Some d => scan_radix b s' (b * acc + d)%N (cnt + 1)
      | None => (acc, cnt, s)
      end
  | EmptyString => (acc, cnt, s)
  end.

Definition radix_of_prefix (c : ascii) : option N :=
  let n := code c in
  if (n =? 120)%N || (n =? 88)%N then Some 16%N
  else if (n =? 111)%N || (n =? 79)%N then Some 8%N
  else if (n =? 98)%N || (n =? 66)%N then Some 2%N
  else None.

Definition scan_non_decimal (s : string) : option (number * string) :=
  match s with
  | String "0" (String p s') =>
      match radix_of_prefix p with
      | Some b =>
          let '(v, n, rest) := scan_radix b s' 0%N 0 in
          if n =? 0 then None else Some (of_N v, rest)
      | None => None
      end
  | _ => None
  end.

(** [StringToNumber]: white space is trimmed at both ends, the empty
    string is [+0], and the whole of what remains has to be a
    [StrNumericLiteral]. *)
Definition StringToNumber (s : string) : number :=
  let t := trim_start s in
  match t with
  | EmptyString => zero
  | _ =>
      match scan_non_decimal t with
      | Some (x, rest) => if all_white rest then x else nan
      | None =>
          match scan_decimal t with
          | Some (x, rest) => if all_white rest then x else nan
          | None => nan
          end
      end
  end.

(** *** Printing numbers *)

Definition string_of_N (n : N) : string :=
  NilZero.string_of_uint (N.to_uint n).

Fixpoint zeros (n : nat) : string :=
  match n with
  | O => EmptyString
  | S n' => String "0" (zeros n')
  end.

(** Two numbers that are the same value (NaN is itself, the zeros are
    told apart), as opposed to [num_eq]. *)
Definition same_value (a b : number) : bool :=
  match a, b with
  | S754_nan, S754_nan => true
  | S754_zero s, S754_zero s' => Bool.eqb s s'
  | S754_infinity s, S754_infinity s' => Bool.eqb s s'
  | S754_finite s m e, S754_finite s' m' e' =>
      Bool.eqb s s' && (m =? m')%positive && (e =? e')
  | _, _ => false
  end.

(** The mathematical value of a positive finite number [m * 2^e], as a
    fraction of two positive integers. *)
Definition fraction (m : positive) (e : Z) : positive * positive :=
  match e with
  | Zneg k => (m, 2 ^ k)%positive
  | _ => (m * Z.to_pos (2 ^ e), 1)%positive
  end.

(** [scale10 f t] is [f / 10^t]. *)
Definition scale10 (f : positive * positive) (t : Z) : positive * positive :=
  let '(a, b) := f in
  match t with
  | Z0 => f
  | Zpos k => (a, b * 10 ^ k)%positive
  | Zneg k => (a * 10 ^ k, b)%positive
  end.

Definition digits10 (p : positive) : Z :=
  Z.of_nat (Decimal.nb_digits (Pos.to_uint p)).

(** The integer [n] with [10^(n-1) <= f < 10^n]. *)
Definition magnitude10 (f : positive * positive) : Z :=
  let n0 := digits10 (fst f) - digits10 (snd f) in
  let '(a, b) := scale10 f n0 in
  if (b <=? a)%positive then n0 + 1 else n0.

(** [Number::toString] looks for the least number of digits [k] and an
    integer [s] of [k] digits such that [s * 10^(n-k)] is the number; for
    each [k] the only integers to try are the two that enclose
    [f / 10^(n-k)], and when both fit the nearer one is taken (the even
    one on a tie).  The result is [s] and [n]. *)
Fixpoint shortest_digits (x : number) (f : positive * positive) (n k : Z)
    (fuel : nat) : N * Z :=
  let t := n - k in
  let '(a, b) := scale10 f t in
  let lo := (Npos a / Npos b)%N in
  let r := (Npos a mod Npos b)%N in
  let hi := (lo + 1)%N in
  let ok_lo := same_value (of_decimal false lo t) x in
  let ok_hi := same_value (of_decimal false hi t) x in
  let nearer :=
    match (2 * r ?= Npos b)%N with
    | Lt => lo
    | Gt => hi
    | Eq => if N.even lo then lo else hi
    end in
  let pick :=
    if ok_lo && ok_hi then Some nearer
    else if ok_lo then Some lo
    else if ok_hi then Some hi
    else None in
  match pick, fuel with
  | Some s, _ =>
      if (s =? 10 ^ Z.to_N k)%N then ((s / 10)%N, n + 1) else (s, n)
  | None, S fuel' => shortest_digits x f n (k + 1) fuel'
  | None, O => (nearer, n)
  end.

(** The decimal or exponential layout of the digits [d] of a number of
    magnitude [n]. *)
Definition layout (d : string) (n : Z) : string :=
  let k := Z.of_nat (String.length d) in
  if (k <=? n) && (n <=? 21) then d ++ zeros (Z.to_nat (n - k))
  else if (0 <? n) && (n <=? 21) then
    substring 0 (Z.to_nat n) d ++ "." ++
    substring (Z.to_nat n) (Z.to_nat (k - n)) d
  else if (-6 <? n) && (n <=? 0) then "0." ++ zeros (Z.to_nat (- n)) ++ d
  else
    let e := n - 1 in
    let es := (if e <? 0 then "-" else "+") ++ string_of_N (Z.abs_N e) in
    match d with
    | String c EmptyString => String c ("e" ++ es)
    | String c rest => String c ("." ++ rest ++ "e" ++ es)
    | EmptyString => EmptyString
    end.

(** [Number::toString] in radix 10, which is [ToString] on a number. *)
Definition Number_toString (x : number) : string :=
  match x with
  | S754_nan => "NaN"
  | S754_zero _ => "0"
  | S754_infinity s => if s then "-Infinity" else "Infinity"
  | S754_finite s m e =>
      let f := fraction m e in
      let '(d, n) :=
        shortest_digits (S754_finite false m e) f (magnitude10 f) 1 20 in
      (if s then "-" else EmptyString) ++ layout (string_of_N d) n
  end.

(** The integer nearest to a fraction, the larger one on a tie. *)
Definition round_half_up (f : positive * positive) : N :=
  let '(a, b) := f in ((2 * Npos a + Npos b) / (2 * Npos b))%N.

(** The digits of [n / 10^fd] with [fd] of them after the point. *)
Definition fixed_layout (n : N) (fd : nat) : string :=
  let m := string_of_N n in
  let m := if (String.length m <=? fd)%nat
           then zeros (fd + 1 - String.length m) ++ m else m in
  let k := String.length m in
  match fd with
  | O => m
  | _ => substring 0 (k - fd) m ++ "." ++ substring (k - fd) fd m
  end.

(** [Number.prototype.toFixed(fd)]: NaN and the infinities print as
    [ToString] prints them; the sign is taken off a number below zero
    (not off [-0]); from [10^21] on the number prints as [ToString] prints
    it; below, the integer nearest to [x * 10^fd] is laid out with [fd]
    decimals. *)
Definition toFixed (x : number) (fd : nat) : string :=
  match x with
  | S754_nan | S754_infinity _ => Number_toString x
  | S754_zero _ => fixed_layout 0 fd
  | S754_finite s m e =>
      let f := fraction m e in
      let sign := if s then "-" else EmptyString in
      if (snd f * 10 ^ 21 <=? fst f)%positive
      then sign ++ Number_toString (S754_finite false m e)
      else sign ++ fixed_layout (round_half_up (scale10 f (- Z.of_nat fd))) fd
  end.

End Js.

(** ** JavaScript values *)

(** The values a grade field can hold: what a form control gives (a
    string), what the component's initial state gives (a number), what
    [JSON.parse] gives from the saved data, and [undefined] for a property
    that is not there.  Arrays and nested objects are left out. *)
Variant value : Set :=
  | Undefined
  | Null
  | Boolean (b : bool)
  | Number (x : Js.number)
  | Str (s : string).

Definition ToString (v : value) : string :=
  match v with
  | Undefined => "undefined"
  | Null => "null"
  | Boolean b => if b then "true" else "false"
  | Number x => Js.Number_toString x
  | Str s => s
  end.

Definition ToNumber (v : value) : Js.number :=
  match v with
  | Undefined => Js.nan
  | Null => Js.zero
  | Boolean b => if b then Js.of_N 1 else Js.zero
  | Number x => x
  | Str s => Js.StringToNumber s
  end.

(** The global [isNaN] and [parseFloat]: the first converts its argument
    with [ToNumber], the second with [ToString]. *)
Definition isNaN (v : value) : bool := Js.is_nan (ToNumber v).

Definition parseFloat (v : value) : Js.number :=
  Js.parseFloat_string (ToString v).

(** The empty string [''], the value of a form control left empty. *)
Definition blank : value := Str EmptyString.

(** [a === b] and [a !== b]. *)
Definition strict_eq (a b : value) : bool :=
  match a, b with
  | Undefined, Undefined => true
  | Null, Null => true
  | Boolean x, Boolean y => Bool.eqb x y
  | Number x, Number y => Js.num_eq x y
  | Str x, Str y => String.eqb x y
  | _, _ => false
  end.

Definition strict_ne (a b : value) : bool := negb (strict_eq a b).

(** Numeric literals of the source text. *)
Definition lit_0 : Js.number := Js.zero.
Definition lit_0_2 : Js.number := Js.of_decimal false 2 (-1).
Definition lit_0_3 : Js.number := Js.of_decimal false 3 (-1).
Definition lit_0_4 : Js.number := Js.of_decimal false 4 (-1).
Definition lit_0_5 : Js.number := Js.of_decimal false 5 (-1).
Definition lit_0_6 : Js.number := Js.of_decimal false 6 (-1).
Definition lit_8 : Js.number := Js.of_N 8.
Definition lit_10 : Js.number := Js.of_N 10.
Definition lit_16 : Js.number := Js.of_N 16.

Declare Scope js_scope.
Delimit Scope js_scope with js.
Infix "+" := Js.add : js_scope.
Infix "*" := Js.mul : js_scope.
Infix "/" := Js.div : js_scope.
Infix "<" := Js.lt : js_scope.
Infix ">" := Js.gt : js_scope.
Infix ">=" := Js.ge : js_scope.
Infix "===" := strict_eq (at level 70) : js_scope.
Infix "!==" := strict_ne (at level 70) : js_scope.

(** ** Data model *)

(** An entry of the [grades] array.  The page stores the five form fields;
    the component adds an [id]. *)
Record grade : Set := {
  subject : value;
  coef : value;
  cc : value;
  tp : value;
  exam : value;
  id : value
}.

(** The object literal [{ cc, tp, exam }] that [calculerMoyenne] takes
    apart. *)
Record notes : Set := {
  notes_cc : value;
  notes_tp : value;
  notes_exam : value
}.

(** ** The plain JavaScript page *)

Section Script.

(** [calculerMoyenne(notes)], lines 16 to 39. *)
Definition calculerMoyenne (n : notes) : string :=
  let cc := notes_cc n in
  let tp := notes_tp n in
  let exam := notes_exam n in
  let hasCC :=
    (cc !== Null)%js && (cc !== Undefined)%js && negb (isNaN cc)
    && (cc !== blank)%js in
  let hasTP :=
    (tp !== Null)%js && (tp !== Undefined)%js && negb (isNaN tp)
    && (tp !== blank)%js in
  let valCC := if hasCC then parseFloat cc else lit_0 in
  let valTP := if hasTP then parseFloat tp else lit_0 in
  let valExam := parseFloat exam in
  if hasCC && hasTP then
    Js.toFixed (valCC * lit_0_3 + valTP * lit_0_2 + valExam * lit_0_5)%js 2
  else if hasCC || hasTP then
    let note1 := if hasCC then valCC else valTP in
    Js.toFixed (note1 * lit_0_4 + valExam * lit_0_6)%js 2
  else
    Js.toFixed valExam 2.

Record style : Set := { class : string; icon : string }.

(** [getStyleMoyenne(moyenne)], lines 41 to 47. *)
Definition getStyleMoyenne (moyenne : value) : style :=
  let moy := parseFloat moyenne in
  if (moy >= lit_16)%js then {| class := "grade-excellent"; icon := "🟢" |}
  else if (moy >= lit_10)%js then {| class := "grade-good"; icon := "🟡" |}
  else if (moy >= lit_8)%js then {| class := "grade-warning"; icon := "🔴" |}
  else {| class := "grade-danger"; icon := "🔴⚠️" |}.

(** What [updateStats] reads and writes: the global [grades] array, the
    text of the three statistics elements and the colour of the first. *)
Record page : Set := {
  grades : list grade;
  generalAverageEl : string;
  validatedCountEl : string;
  dangerCountEl : string;
  generalAverageEl_color : string
}.

(** The four accumulators of the loop of [updateStats].  The two counters
    only ever hold small non-negative integers and are kept as [nat]. *)
Record totals : Set := {
  totalPoints_acc : Js.number;
  totalCoef_acc : Js.number;
  validated : nat;
  danger : nat
}.

(** One turn of [grades.forEach], lines 97 to 106. *)
Definition updateStats_step (t : totals) (g : grade) : totals :=
  let notes :=
    {| notes_cc := cc g; notes_tp := tp g; notes_exam := exam g |} in
  let avg := parseFloat (Str (calculerMoyenne notes)) in
  let coef := parseFloat (coef g) in
  {| totalPoints_acc := (totalPoints_acc t + avg * coef)%js;
     totalCoef_acc := (totalCoef_acc t + coef)%js;
     validated := if (avg >= lit_10)%js then S (validated t) else validated t;
     danger := if (avg < lit_8)%js then S (danger t) else danger t |}.

Definition string_of_nat (n : nat) : string := Js.string_of_N (N.of_nat n).

(** [updateStats()], lines 84 to 117. *)
Definition updateStats (p : page) : page :=
  match grades p with
  | [] =>
      {| grades := grades p;
         generalAverageEl := "-";
         validatedCountEl := "-";
         dangerCountEl := "-";
         generalAverageEl_color := generalAverageEl_color p |}
  | _ =>
      let t :=
        fold_left updateStats_step (grades p)
          {| totalPoints_acc := lit_0; totalCoef_acc := lit_0;
             validated := 0; danger := 0 |} in
      let generalAvg :=
        if (totalCoef_acc t > lit_0)%js
        then Js.toFixed (totalPoints_acc t / totalCoef_acc t)%js 2
        else "0.00" in
      let style := getStyleMoyenne (Str generalAvg) in
      {| grades := grades p;
         generalAverageEl := generalAvg;
         validatedCountEl := string_of_nat (validated t);
         dangerCountEl := string_of_nat (danger t);
         generalAverageEl_color :=
           if String.eqb (class style) "grade-excellent"
           then "#d4edda" else "white" |}
  end.

End Script.

(** ** The React component *)

Section GradeCalculator.

(** [calculateAverage(cc, tp, exam)], lines 245 to 260. *)
Definition calculateAverage (cc tp exam : value) : Js.number :=
  let hasCC := (cc !== blank)%js && (cc !== Null)%js && negb (isNaN cc) in
  let hasTP := (tp !== blank)%js && (tp !== Null)%js && negb (isNaN tp) in
  let valCC := if hasCC then parseFloat cc else lit_0 in
  let valTP := if hasTP then parseFloat tp else lit_0 in
  let valExam := Js.or_else (parseFloat exam) lit_0 in
  if hasCC && hasTP then
    (valCC * lit_0_3 + valTP * lit_0_2 + valExam * lit_0_5)%js
  else if hasCC || hasTP then
    let note1 := if hasCC then valCC else valTP in
    (note1 * lit_0_4 + valExam * lit_0_6)%js
  else
    valExam.

Record style_params : Set := {
  color : string;
  bg : string;
  border : string;
  sp_icon : string;
  label : string
}.

(** [getStyleParams(avg)], lines 266 to 295. *)
Definition getStyleParams (avg : Js.number) : style_params :=
  if (avg >= lit_16)%js then
    {| color := "text-emerald-600";
       bg := "bg-gradient-to-r from-emerald-50 to-green-50";
       border := "border-emerald-400";
       sp_icon := "üéØ";
       label := "Excellent" |}
  else if (avg >= lit_10)%js then
    {| color := "text-gray-900";
       bg := "bg-gradient-to-r from-gray-50 to-slate-50";
       border := "border-gray-300";
       sp_icon := "‚úÖ";
       label := "Valid√©" |}
  else if (avg >= lit_8)%js then
    {| color := "text-amber-600";
       bg := "bg-gradient-to-r from-amber-50 to-orange-50";
       border := "border-amber-400";
       sp_icon := "‚ö†Ô∏è";
       label := "Rattrapage" |}
  else
    {| color := "text-rose-600";
       bg := "bg-gradient-to-r from-rose-50 to-red-50";
       border := "border-rose-400";
       sp_icon := "‚ùå";
       label := "√âchec" |}.

(** The computed values, lines 301 to 310. *)
Definition totalCoef (grades : list grade) : Js.number :=
  fold_left (fun acc curr => (acc + parseFloat (coef curr))%js) grades lit_0.

Definition totalPoints (grades : list grade) : Js.number :=
  fold_left
    (fun acc curr =>
       let avg := calculateAverage (cc curr) (tp curr) (exam curr) in
       (acc + avg * parseFloat (coef curr))%js)
    grades lit_0.

Definition generalAvg (grades : list grade) : string :=
  if (totalCoef grades > lit_0)%js
  then Js.toFixed (totalPoints grades / totalCoef grades)%js 2
  else "0.00".

Definition validatedCount (grades : list grade) : nat :=
  List.length
    (filter (fun g => (calculateAverage (cc g) (tp g) (exam g) >= lit_10)%js)
       grades).

Definition dangerCount (grades : list grade) : nat :=
  List.length
    (filter (fun g => (calculateAverage (cc g) (tp g) (exam g) < lit_8)%js)
       grades).

End GradeCalculator.

(** ** Notions of the specification *)

(** The specification calls a mark present when it is provided, not empty
    and numeric.  [present] follows these words; both programs test it
    with an expression of their own. *)
Definition provided (v : value) : bool :=
  match v with
  | Undefined | Null => false
  | _ => true
  end.

Definition empty (v : value) : bool :=
  match v with
  | Str EmptyString => true
  | _ => false
  end.

Definition numeric (v : value) : bool := negb (isNaN v).

Definition present (v : value) : bool :=
  provided v && negb (empty v) && numeric v.

(** The number that the test of presence sees in a mark is [Number(v)],
    through [isNaN]; the number that enters the weighted sum is
    [parseFloat(v)].  A mark is read as tested when the two are the same
    number, as they are on a decimal text such as ["12.5"].  They differ on
    white space, on a hexadecimal literal and on a boolean, which are
    numeric for the test. *)
Definition read_as_tested (v : value) : Prop := parseFloat v = ToNumber v.

(** The object literal [{ cc: ..., tp: ..., exam: ... }] at the call
    sites of [calculerMoyenne]. *)
Definition mk_notes (cc tp exam : value) : notes :=
  {| notes_cc := cc; notes_tp := tp; notes_exam := exam |}.

(** The exam mark as each program reads it. *)
Definition exam_page (exam : value) : Js.number := parseFloat exam.

Definition exam_component (exam : value) : Js.number :=
  Js.or_else (parseFloat exam) lit_0.

(** What [x >= c] means for a positive finite constant [c = mc * 2^ec]:
    [x] is plus infinity or a positive finite number that comes after [c]
    in the order of exponents, then mantissas. *)
Definition above (mc : positive) (ec : Z) (x : Js.number) : Prop :=
  match x with
  | S754_infinity false => True
  | S754_finite false m e => ec < e \/ (e = ec /\ (mc <= m)%positive)
  | _ => False
  end.

(** The four tiers of the specification and their bounds. *)
Variant tier : Set := Excellent | Good | Warning | Danger.

Definition in_tier (t : tier) (x : Js.number) : bool :=
  match t with
  | Excellent => (x >= lit_16)%js
  | Good => (x >= lit_10)%js && (x < lit_16)%js
  | Warning => (x >= lit_8)%js && (x < lit_10)%js
  | Danger => (x < lit_8)%js
  end.

(** The tier that a result of [getStyleParams] shows, by its label, and
    the one that a result of [getStyleMoyenne] shows, by its class. *)
Definition tier_of_label (p : style_params) : option tier :=
  if String.eqb (label p) "Excellent" then Some Excellent
  else if String.eqb (label p) "Valid√©" then Some Good
  else if String.eqb (label p) "Rattrapage" then Some Warning
  else if String.eqb (label p) "√âchec" then Some Danger
  else None.

Definition tier_of_class (s : style) : option tier :=
  if String.eqb (class s) "grade-excellent" then Some Excellent
  else if String.eqb (class s) "grade-good" then Some Good
  else if String.eqb (class s) "grade-warning" then Some Warning
  else if String.eqb (class s) "grade-danger" then Some Danger
  else None.

(** The tier chosen by the cascade of tests that both programs run. *)
Definition cascade (x : Js.number) : tier :=
  if (x >= lit_16)%js then Excellent
  else if (x >= lit_10)%js then Good
  else if (x >= lit_8)%js then Warning
  else Danger.

(** The sum of a list of numbers as both programs accumulate it: from [0],
    left to right. *)
Definition js_sum (l : list Js.number) : Js.number := fold_left Js.add l lit_0.

Fixpoint count {A : Type} (p : A -> bool) (l : list A) : nat :=
  match l with
  | [] => 0
  | a :: l' => (if p a then 1 else 0) + count p l'
  end.

(** The subject average and the coefficient of an entry, as each program
    reads them. *)
Definition coef_of (g : grade) : Js.number := parseFloat (coef g).

Definition component_average (g : grade) : Js.number :=
  calculateAverage (cc g) (tp g) (exam g).

Definition page_average (g : grade) : Js.number :=
  parseFloat (Str (calculerMoyenne (mk_notes (cc g) (tp g) (exam g)))).

(** The accumulators as the loop of [updateStats] finds them. *)
Definition start : totals :=
  {| totalPoints_acc := lit_0; totalCoef_acc := lit_0;
     validated := 0; danger := 0 |}.

(** The text of the general average once the two sums are known. *)
Definition render_general (points coefs : Js.number) : string :=
  if (coefs > lit_0)%js then Js.toFixed (points / coefs)%js 2 else "0.00".

(** The general average in the specification's words: the weighted mean
    over the entries whose coefficient is numeric and not negative, and 0
    when the coefficients of these entries sum to 0. *)
Definition spec_counted (g : grade) : bool := (coef_of g >= lit_0)%js.

Definition spec_generalAverage (avg : grade -> Js.number) (gs : list grade)
  : Js.number :=
  let kept := filter spec_counted gs in
  let coefs := js_sum (map coef_of kept) in
  if Js.num_eq coefs lit_0 then lit_0
  else (js_sum (map (fun g => avg g * coef_of g)%js kept) / coefs)%js.

(** The four fields of an entry that the computations read. *)
Definition marks (g : grade) : value * value * value * value :=
  (cc g, tp g, exam g, coef g).

Definition marks_coef (m : value * value * value * value) : Js.number :=
  parseFloat (snd m).

Definition marks_component_average (m : value * value * value * value)
  : Js.number :=
  let '(cc, tp, exam, _) := m in calculateAverage cc tp exam.

Definition marks_page_average (m : value * value * value * value)
  : Js.number :=
  let '(cc, tp, exam, _) := m in
  parseFloat (Str (calculerMoyenne (mk_notes cc tp exam))).

(** The three marks of an entry, its coefficient left out. *)
Definition scores (g : grade) : value * value * value :=
  (cc g, tp g, exam g).

Definition scores_component_average (m : value * value * value) : Js.number :=
  let '(cc, tp, exam) := m in calculateAverage cc tp exam.

Definition scores_page_average (m : value * value * value) : Js.number :=
  let '(cc, tp, exam) := m in
  parseFloat (Str (calculerMoyenne (mk_notes cc tp exam))).

(** ** Concrete inputs *)

(** A form submission: every field is the string of its control, the
    empty string for a control left empty. *)
Definition entry (cc tp exam coef : value) : grade :=
  {| subject := Str "Analyse"; coef := coef; cc := cc; tp := tp;
     exam := exam; id := Undefined |}.

(** A page on which [updateStats] has not run yet. *)
Definition fresh_page (gs : list grade) : page :=
  {| grades := gs; generalAverageEl := "-"; validatedCountEl := "-";
     dangerCountEl := "-"; generalAverageEl_color := "white" |}.

Definition three_marks_input : notes :=
  mk_notes (Str "0") (Str "0") (Str "0.25").

Definition two_marks_input : notes :=
  mk_notes (Str "0") blank (Str "0.01").

Definition exam_only_input : notes :=
  mk_notes blank blank (Str "9.996").

Definition negative_coef_grades : list grade :=
  [entry blank blank (Str "10") (Str "3");
   entry blank blank (Str "20") (Str "-1")].

Definition zero_coef_grades : list grade :=
  [entry blank blank (Str "16") (Str "0")].

Definition near_pass_grades : list grade :=
  [entry blank blank (Str "9.996") (Str "1")].

Definition num (n : N) : value := Number (Js.of_N n).

(** The scenario of the specification,
    [[{cc:12, tp:14, exam:10, coef:2}, {exam:16, coef:1},
    {tp:6, exam:4, coef:1}]]: a number where the scenario gives one,
    [undefined] for a property it leaves out. *)
Definition scenario : list grade :=
  [{| subject := Undefined; coef := num 2; cc := num 12; tp := num 14;
      exam := num 10; id := Undefined |};
   {| subject := Undefined; coef := num 1; cc := Undefined; tp := Undefined;
      exam := num 16; id := Undefined |};
   {| subject := Undefined; coef := num 1; cc := Undefined; tp := num 6;
      exam := num 4; id := Undefined |}].

Definition missing_exam_grades : list grade :=
  [entry (Str "12") (Str "14") (Str "10") (Str "2");
   entry blank blank blank (Str "1")].

(** The entries of [missing_exam_grades] under other subjects and with
    ids. *)
Definition renamed_grades : list grade :=
  [{| subject := Str "Physique"; coef := Str "2"; cc := Str "12";
      tp := Str "14"; exam := Str "10"; id := num 1 |};
   {| subject := Str "Chimie"; coef := Str "1"; cc := blank; tp := blank;
      exam := blank; id := num 2 |}].

(** An entry that [handleSubmit] would turn away. *)
Definition subjectless_entry : grade :=
  {| subject := blank; coef := Str "1"; cc := blank; tp := blank;
     exam := blank; id := Undefined |}.

(** * The handlers around the averaging core *)

(** ** More of the runtime *)

(** [ToBoolean] on a value, and [a || b] on two values. *)
Definition ToBoolean (v : value) : bool :=
  match v with
  | Undefined | Null => false
  | Boolean b => b
  | Number x => Js.truthy x
  | Str EmptyString => false
  | Str (String _ _) => true
  end.

Definition value_or (a b : value) : value := if ToBoolean a then a else b.

(** [l.splice(start, 1)], as it leaves the array: a negative [start]
    counts from the end, a [start] past the end removes nothing. *)
Definition splice_one {A : Type} (l : list A) (start : Z) : list A :=
  let len := Z.of_nat (List.length l) in
  let actualStart :=
    if start <? 0 then Z.max (len + start) 0 else Z.min start len in
  let actualDeleteCount := Z.min (Z.max 1 0) (len - actualStart) in
  firstn (Z.to_nat actualStart) l
  ++ skipn (Z.to_nat (actualStart + actualDeleteCount)) l.

(** [s.replace(c, d)] for two one-character strings: the first [c] only. *)
Fixpoint replace_first (c d : ascii) (s : string) : string :=
  match s with
  | EmptyString => s
  | String x s' =>
      if Ascii.eqb x c then String d s' else String x (replace_first c d s')
  end.

(** An element of an array inside [join]: [undefined] and [null] give the
    empty string. *)
Definition join_item (v : value) : string :=
  match v with
  | Undefined | Null => EmptyString
  | _ => ToString v
  end.

Fixpoint join (sep : string) (l : list string) : string :=
  match l with
  | [] => EmptyString
  | [x] => x
  | x :: l' => x ++ sep ++ join sep l'
  end.

Definition quote : string := String "034" EmptyString.
Definition newline : string := String "010" EmptyString.

(** ** The page: table, storage and handlers *)

Module Page.

(** The template literal of lines 66 to 76 with its holes filled, the text
    that is assigned to [tr.innerHTML].  The values are put in as they
    are, without escaping, so a field that holds markup becomes markup of
    the row.  The cross of the button is kept as the bytes of the source
    text. *)
Definition template
    (subject cc tp exam coef class avg icon index : string) : string :=
  newline
  ++ "            <td>" ++ subject ++ "</td>" ++ newline
  ++ "            <td>" ++ cc ++ "</td>" ++ newline
  ++ "            <td>" ++ tp ++ "</td>" ++ newline
  ++ "            <td>" ++ exam ++ "</td>" ++ newline
  ++ "            <td>" ++ coef ++ "</td>" ++ newline
  ++ "            <td><span class=" ++ quote ++ "grade-badge " ++ class
  ++ quote ++ ">" ++ avg ++ " " ++ icon ++ "</span></td>" ++ newline
  ++ "            <td>" ++ newline
  ++ "                <button class=" ++ quote ++ "btn-delete" ++ quote
  ++ " onclick=" ++ quote ++ "deleteGrade(" ++ index ++ ")" ++ quote
  ++ " title=" ++ quote ++ "Supprimer" ++ quote ++ ">✖</button>" ++ newline
  ++ "            </td>" ++ newline
  ++ "        ".

(** A [tr] of the table body: the text assigned to its [innerHTML] and,
    next to it, the values that filled the holes of the template, in
    order; [row_delete] is the index given to [deleteGrade] in the button's
    [onclick].  What the browser builds from the text is not part of the
    model: the properties of a row are properties of what [renderTable]
    wrote. *)
Record row : Set := {
  row_innerHTML : string;
  row_subject : string;
  row_cc : string;
  row_tp : string;
  row_exam : string;
  row_coef : string;
  row_class : string;
  row_avg : string;
  row_icon : string;
  row_delete : nat
}.

(** The body of [grades.forEach((grade, index) => ...)] in [renderTable],
    lines 61 to 78. *)
Definition render_row (grade : grade) (index : nat) : row :=
  let avg :=
    calculerMoyenne
      {| notes_cc := cc grade; notes_tp := tp grade;
         notes_exam := exam grade |} in
  let style := getStyleMoyenne (Str avg) in
  let cell_cc :=
    ToString (if (cc grade !== blank)%js then cc grade else Str "-") in
  let cell_tp :=
    ToString (if (tp grade !== blank)%js then tp grade else Str "-") in
  {| row_innerHTML :=
       template (ToString (subject grade)) cell_cc cell_tp
         (ToString (exam grade)) (ToString (coef grade))
         (class style) avg (icon style) (string_of_nat index);
     row_subject := ToString (subject grade);
     row_cc := cell_cc;
     row_tp := cell_tp;
     row_exam := ToString (exam grade);
     row_coef := ToString (coef grade);
     row_class := class style;
     row_avg := avg;
     row_icon := icon style;
     row_delete := index |}.

(** The loop itself: each turn appends a row to the table body. *)
Fixpoint forEach_rows (gs : list grade) (index : nat) (tbody : list row)
  : list row :=
  match gs with
  | [] => tbody
  | g :: gs' => forEach_rows gs' (S index) (tbody ++ [render_row g index])
  end.

(** What the handlers of the page read and write: the statistics and the
    [grades] array (the record [page]), the rows of the table body, the
    display of the empty-state block, and the item [gradeData] of
    [localStorage].  The item holds the text [JSON.stringify(grades)]; the
    model keeps the array that was serialised, and [None] when the item is
    not there. *)
Record app : Set := {
  view : page;
  gradesTableBody : list row;
  emptyState_display : string;
  gradeData : option (list grade)
}.

Definition with_grades (gs : list grade) (a : app) : app :=
  {| view :=
       {| grades := gs;
          generalAverageEl := generalAverageEl (view a);
          validatedCountEl := validatedCountEl (view a);
          dangerCountEl := dangerCountEl (view a);
          generalAverageEl_color := generalAverageEl_color (view a) |};
     gradesTableBody := gradesTableBody a;
     emptyState_display := emptyState_display a;
     gradeData := gradeData a |}.

(** [saveData()], lines 120 to 122. *)
Definition saveData (a : app) : app :=
  {| view := view a;
     gradesTableBody := gradesTableBody a;
     emptyState_display := emptyState_display a;
     gradeData := Some (grades (view a)) |}.

(** [renderTable()], lines 50 to 82. *)
Definition renderTable (a : app) : app :=
  match grades (view a) with
  | [] =>
      {| view := updateStats (view a);
         gradesTableBody := [];
         emptyState_display := "block";
         gradeData := gradeData a |}
  | _ =>
      saveData
        {| view := updateStats (view a);
           gradesTableBody := forEach_rows (grades (view a)) 0 [];
           emptyState_display := "none";
           gradeData := gradeData a |}
  end.

(** [addGrade(e)], lines 124 to 145, on the values of the five controls;
    the reset of the form and the focus are left out. *)
Definition addGrade (subject coef cc tp exam : string) (a : app) : app :=
  let newGrade :=
    {| subject := Str subject; coef := Str coef; cc := Str cc; tp := Str tp;
       exam := Str exam; id := Undefined |} in
  renderTable (with_grades (grades (view a) ++ [newGrade]) a).

(** [window.deleteGrade(index)], lines 148 to 153; [confirmed] is the
    answer to [confirm]. *)
Definition deleteGrade (index : Z) (confirmed : bool) (a : app) : app :=
  if confirmed
  then renderTable (with_grades (splice_one (grades (view a)) index) a)
  else a.

(** The click on [resetBtn], lines 158 to 163. *)
Definition resetClick (confirmed : bool) (a : app) : app :=
  if confirmed then renderTable (with_grades [] a) else a.

(** The line of an entry in the CSV export, lines 176 to 185. *)
Definition csv_row (grade : grade) : string :=
  let avg :=
    calculerMoyenne
      {| notes_cc := cc grade; notes_tp := tp grade;
         notes_exam := exam grade |} in
  join ","
    [quote ++ ToString (subject grade) ++ quote;
     join_item (value_or (cc grade) blank);
     join_item (value_or (tp grade) blank);
     join_item (exam grade);
     join_item (coef grade);
     replace_first "." "," avg].

Definition csv_header : string :=
  "Mati" ++ String "232" "re,Note CC,Note TP,Note Exam,Coef,Moyenne"
  ++ newline.

(** The click on [exportCsvBtn], lines 169 to 195, up to the text
    [csvContent] that is handed to [encodeURI]: [None] when the collection
    is empty and the handler only alerts. *)
Definition csvContent (gs : list grade) : option string :=
  match gs with
  | [] => None
  | _ =>
      Some
        (fold_left (fun csv grade => csv ++ csv_row grade ++ newline) gs
           ("data:text/csv;charset=utf-8," ++ csv_header))
  end.

(** What the user does on the page. *)
Variant event : Set :=
  | Add (subject coef cc tp exam : string)
  | Delete (index : Z) (confirmed : bool)
  | Reset (confirmed : bool).

Definition handle (a : app) (e : event) : app :=
  match e with
  | Add subject coef cc tp exam => addGrade subject coef cc tp exam a
  | Delete index confirmed => deleteGrade index confirmed a
  | Reset confirmed => resetClick confirmed a
  end.

Definition run (es : list event) (a : app) : app := fold_left handle es a.

End Page.

(** ** The component: form, storage and handlers *)

(** [g.id], under a name that the parameter [id] of [deleteGrade] does not
    hide. *)
Definition id_of (g : grade) : value := id g.

Module Component.

(** The [name] attributes of the five controls of the form. *)
Variant field : Set := f_subject | f_coef | f_cc | f_tp | f_exam.

Record formData : Set := {
  fd_subject : value;
  fd_coef : value;
  fd_cc : value;
  fd_tp : value;
  fd_exam : value
}.

(** [{ subject: '', coef: 1, cc: '', tp: '', exam: '' }], lines 218 to 224
    and 334. *)
Definition initial_formData : formData :=
  {| fd_subject := blank; fd_coef := Number (Js.of_N 1); fd_cc := blank;
     fd_tp := blank; fd_exam := blank |}.

(** The state of the component and the item [espritGradeData] of
    [localStorage], which the effect of lines 231 to 233 rewrites each time
    [grades] is set; as on the page, the model keeps the array that was
    serialised. *)
Record component : Set := {
  grades : list grade;
  form : formData;
  espritGradeData : option (list grade)
}.

(** [setGrades(gs)] followed by the effect. *)
Definition setGrades (gs : list grade) (c : component) : component :=
  {| grades := gs; form := form c; espritGradeData := Some gs |}.

Definition setFormData (f : formData) (c : component) : component :=
  {| grades := grades c; form := f; espritGradeData := espritGradeData c |}.

(** [{ ...prev, [name]: value }]. *)
Definition with_field (name : field) (v : value) (prev : formData)
  : formData :=
  match name with
  | f_subject =>
      {| fd_subject := v; fd_coef := fd_coef prev; fd_cc := fd_cc prev;
         fd_tp := fd_tp prev; fd_exam := fd_exam prev |}
  | f_coef =>
      {| fd_subject := fd_subject prev; fd_coef := v; fd_cc := fd_cc prev;
         fd_tp := fd_tp prev; fd_exam := fd_exam prev |}
  | f_cc =>
      {| fd_subject := fd_subject prev; fd_coef := fd_coef prev; fd_cc := v;
         fd_tp := fd_tp prev; fd_exam := fd_exam prev |}
  | f_tp =>
      {| fd_subject := fd_subject prev; fd_coef := fd_coef prev;
         fd_cc := fd_cc prev; fd_tp := v; fd_exam := fd_exam prev |}
  | f_exam =>
      {| fd_subject := fd_subject prev; fd_coef := fd_coef prev;
         fd_cc := fd_cc prev; fd_tp := fd_tp prev; fd_exam := v |}
  end.

Definition get_field (name : field) (f : formData) : value :=
  match name with
  | f_subject => fd_subject f
  | f_coef => fd_coef f
  | f_cc => fd_cc f
  | f_tp => fd_tp f
  | f_exam => fd_exam f
  end.

(** [handleInputChange(e)], lines 316 to 322, on the name and the value of
    the control. *)
Definition handleInputChange (name : field) (v : string) (c : component)
  : component :=
  setFormData (with_field name (Str v) (form c)) c.

(** [{ ...formData, id: Date.now() }]. *)
Definition new_grade (f : formData) (now : Js.number) : grade :=
  {| subject := fd_subject f; coef := fd_coef f; cc := fd_cc f;
     tp := fd_tp f; exam := fd_exam f; id := Number now |}.

(** [handleSubmit(e)], lines 324 to 345; [now] is what [Date.now()]
    returns.  The scrolling is left out. *)
Definition handleSubmit (now : Js.number) (c : component) : component :=
  let formData := form c in
  if negb (ToBoolean (fd_subject formData))
     || (fd_exam formData === blank)%js
  then c
  else
    setFormData initial_formData
      (setGrades (grades c ++ [new_grade formData now]) c).

(** [deleteGrade(id)], lines 347 to 351. *)
Definition deleteGrade (id : value) (confirmed : bool) (c : component)
  : component :=
  if confirmed
  then setGrades (filter (fun g => (id_of g !== id)%js) (grades c)) c
  else c.

(** [resetAll()], lines 353 to 357. *)
Definition resetAll (confirmed : bool) (c : component) : component :=
  if confirmed then setGrades [] c else c.

(** What the user does on the component. *)
Variant event : Set :=
  | Input (name : field) (v : string)
  | Submit (now : Js.number)
  | Delete (id : value) (confirmed : bool)
  | ResetAll (confirmed : bool).

Definition handle (c : component) (e : event) : component :=
  match e with
  | Input name v => handleInputChange name v c
  | Submit now => handleSubmit now c
  | Delete id confirmed => deleteGrade id confirmed c
  | ResetAll confirmed => resetAll confirmed c
  end.

Definition run (es : list event) (c : component) : component :=
  fold_left handle es c.

(** The component as it mounts with nothing saved: [useState] finds no
    item and starts from [[]], and the effect runs once. *)
Definition mounted : component :=
  {| grades := []; form := initial_formData; espritGradeData := Some [] |}.

(** The component as it mounts in general, lines 212 to 215 and 231 to
    233: [useState] takes the array of the saved item, when there is one,
    without looking at its entries, and the effect saves it back.  The item
    is taken to hold an array of entries, which is what both programs write
    under this key. *)
Definition loaded (saved : option (list grade)) : list grade :=
  match saved with
  | Some gs => gs
  | None => []
  end.

Definition mount (saved : option (list grade)) : component :=
  {| grades := loaded saved; form := initial_formData;
     espritGradeData := Some (loaded saved) |}.

End Component.

(** ** Notions for the further properties *)

(** The tiers from the lowest to the highest. *)
Definition tier_rank (t : tier) : nat :=
  match t with
  | Danger => 0
  | Warning => 1
  | Good => 2
  | Excellent => 3
  end.

(** What [handleSubmit] checks of an entry before it lets it in, and the
    number it gives it. *)
Definition validated_entry (g : grade) : Prop :=
  ToBoolean (subject g) = true
  /\ (exam g === blank)%js = false
  /\ exists now, id g = Number now.

(** The state of a component whose saved item is its collection and whose
    entries all came through [handleSubmit]. *)
Definition well_kept (c : Component.component) : Prop :=
  Component.espritGradeData c = Some (Component.grades c)
  /\ Forall validated_entry (Component.grades c).

(** The state of a component each entry of which was either among the
    entries [l] or came through [handleSubmit]. *)
Definition kept_from (l : list grade) (c : Component.component) : Prop :=
  Forall (fun g => In g l \/ validated_entry g) (Component.grades c).

(** The template filled with the values that a row keeps next to its
    text. *)
Definition row_text (r : Page.row) : string :=
  Page.template (Page.row_subject r) (Page.row_cc r) (Page.row_tp r)
    (Page.row_exam r) (Page.row_coef r) (Page.row_class r) (Page.row_avg r)
    (Page.row_icon r) (string_of_nat (Page.row_delete r)).

(** The rows that the loop of [renderTable] appends for the entries [gs],
    the first of which has index [i]. *)
Fixpoint rows_from (gs : list grade) (i : nat) : list Page.row :=
  match gs with
  | [] => []
  | g :: gs' => Page.render_row g i :: rows_from gs' (S i)
  end.

(** The number that [calculerMoyenne] prints, by the marks that are
    present. *)
Definition page_sum (cc tp exam : value) : Js.number :=
  if present cc && present tp then
    (parseFloat cc * lit_0_3 + parseFloat tp * lit_0_2
     + exam_page exam * lit_0_5)%js
  else if present cc then
    (parseFloat cc * lit_0_4 + exam_page exam * lit_0_6)%js
  else if present tp then
    (parseFloat tp * lit_0_4 + exam_page exam * lit_0_6)%js
  else exam_page exam.

(** The numbers that [toFixed] lays out with a decimal point: the zeros
    and the finite numbers below [10^21] in magnitude. *)
Definition fixed_notation (x : Js.number) : bool :=
  match x with
  | S754_zero _ => true
  | S754_finite _ m e =>
      negb (snd (Js.fraction m e) * 10 ^ 21 <=? fst (Js.fraction m e))%positive
  | _ => false
  end.

Fixpoint count_char (c : ascii) (s : string) : nat :=
  match s with
  | EmptyString => 0
  | String x s' => (if Ascii.eqb x c then 1 else 0) + count_char c s'
  end.

(** A text whose first character is a decimal digit. *)
Definition digit_led (t : string) : Prop :=
  exists c s, t = String c s /\ Js.is_digit c = true.

(** The numbers that are not NaN and not below zero: the two zeros, the
    positive finite numbers and plus infinity. *)
Definition nonneg (x : Js.number) : bool :=
  match x with
  | S754_nan => false
  | S754_zero _ => true
  | S754_infinity s => negb s
  | S754_finite s _ _ => negb s
  end.

(** What [renderTable] wrote in a row: the class of the good or of the
    excellent badge, the class of the danger badge, and an average that
    reads back as a number. *)
Definition written_validated (r : Page.row) : bool :=
  String.eqb (Page.row_class r) "grade-good"
  || String.eqb (Page.row_class r) "grade-excellent".

Definition written_danger (r : Page.row) : bool :=
  String.eqb (Page.row_class r) "grade-danger".

Definition written_number (r : Page.row) : bool :=
  negb (Js.is_nan (parseFloat (Str (Page.row_avg r)))).

(** * Properties *)

(** Closed facts are settled by running the definitions. *)
Ltac by_evaluation := repeat split; vm_compute; reflexivity.

(** ** The runtime model on known values *)

Section Runtime.

#[local] Set Warnings "-inexact-float".

(** The literals of the source are the binary64 numbers that Rocq's
    primitive floats, which are the machine's, read from the same
    decimals. *)
Lemma literals_binary64 :
  [lit_0_2; lit_0_3; lit_0_4; lit_0_5; lit_0_6; lit_8; lit_10; lit_16]
  = map Prim2SF [0.2; 0.3; 0.4; 0.5; 0.6; 8; 10; 16]%float.
Proof. by_evaluation. Qed.

(** Decimals that are hard to round: a tie above 2^53, the largest finite
    number, the least subnormal, half of it (a tie with zero), and 1e23,
    which is not a binary64 number. *)
Lemma of_decimal_binary64 :
  [Js.of_decimal false 9007199254740993 0;
   Js.of_decimal false 17976931348623157 292;
   Js.of_decimal false 5 (-324);
   Js.of_decimal false 2470328229206232720 (-342);
   Js.of_decimal false 1 23;
   Js.of_decimal true 9996 (-3)]
  = map Prim2SF
      [9007199254740993; 1.7976931348623157e308; 5e-324;
       2.470328229206232720e-324; 1e23; -9.996]%float.
Proof. by_evaluation. Qed.

(** The three operations of the program give what the machine gives. *)
Lemma operations_binary64 :
  (Js.of_N 12 * lit_0_3 + Js.of_N 14 * lit_0_2 + Js.of_N 10 * lit_0_5)%js
  = Prim2SF (12 * 0.3 + 14 * 0.2 + 10 * 0.5)%float
  /\ (Js.of_decimal false 436 (-1) / Js.of_N 4)%js
     = Prim2SF (43.6 / 4)%float
  /\ (lit_0_2 + Js.of_decimal false 1 (-1))%js = Prim2SF (0.2 + 0.1)%float.
Proof. by_evaluation. Qed.

Lemma parseFloat_samples :
  map Js.parseFloat_string
    ["10.4"; "  9.996"; "12px"; "1e3"; "1e"; ".5"; "5."; "-.5e-3"; "-0";
     "Infinityx"; "0x10"; "."; EmptyString; " "; "abc"; "NaN"]
  = [Js.of_decimal false 104 (-1); Js.of_decimal false 9996 (-3);
     Js.of_N 12; Js.of_N 1000; Js.of_N 1; lit_0_5; Js.of_N 5;
     Js.of_decimal true 5 (-4); Js.neg_zero; S754_infinity false; Js.zero;
     Js.nan; Js.nan; Js.nan; Js.nan; Js.nan].
Proof. by_evaluation. Qed.

Lemma isNaN_samples :
  map isNaN
    [Str "12"; Str " 12 "; Str "12px"; blank; Str " "; Str "0x10";
     Str "1e"; Str "Infinity"; Undefined; Null; Boolean true;
     Number Js.nan; Number lit_10]
  = [false; false; true; false; false; false; true; false; true; false;
     false; true; false].
Proof. by_evaluation. Qed.

Lemma Number_toString_samples :
  map (fun x => Js.Number_toString (Prim2SF x))
    [0.3; 10.4; 12; 100; -12.5; 0.1 + 0.2; 0.000001; 0.0000001; 1e21; 1e23;
     123456789012345680000; 1.7976931348623157e308; 5e-324; -0]%float
  = ["0.3"; "10.4"; "12"; "100"; "-12.5"; "0.30000000000000004";
     "0.000001"; "1e-7"; "1e+21"; "1e+23"; "123456789012345680000";
     "1.7976931348623157e+308"; "5e-324"; "0"].
Proof. by_evaluation. Qed.

Lemma toFixed_samples :
  map (fun x => Js.toFixed (Prim2SF x) 2)
    [16; 10.4; 0.125; 1.005; 9.995; 9.996; 0.006; 0.004; -0.001; -0; -1.5;
     123456.789; 999999999999999900000; 1e21]%float
  = ["16.00"; "10.40"; "0.13"; "1.00"; "9.99"; "10.00"; "0.01"; "0.00";
     "-0.00"; "0.00"; "-1.50"; "123456.79"; "999999999999999868928.00";
     "1e+21"]
  /\ map (fun x => Js.toFixed x 2)
       [Js.nan; S754_infinity false; S754_infinity true]
     = ["NaN"; "Infinity"; "-Infinity"].
Proof. by_evaluation. Qed.

End Runtime.

(** ** Presence of an optional mark *)

Lemma strict_ne_empty (v : value) : (v !== blank)%js = negb (empty v).
Proof. destruct v as [| | b | x | [|c s]]; reflexivity. Qed.

Lemma strict_ne_Null (v : value) :
  (v !== Null)%js = match v with Null => false | _ => true end.
Proof. destruct v; reflexivity. Qed.

Lemma strict_ne_Undefined (v : value) :
  (v !== Undefined)%js = match v with Undefined => false | _ => true end.
Proof. destruct v; reflexivity. Qed.

(** The test of the page, [v !== null && v !== undefined && !isNaN(v) &&
    v !== '']. *)
Lemma has_page (v : value) :
  (v !== Null)%js && (v !== Undefined)%js && negb (isNaN v)
  && (v !== blank)%js = present v.
Proof.
  rewrite strict_ne_empty, strict_ne_Null, strict_ne_Undefined.
  unfold present, numeric.
  destruct v as [| | b | x | s]; try reflexivity;
    cbn [provided empty]; destruct (isNaN _); cbn;
    rewrite ?andb_true_r, ?andb_false_r; reflexivity.
Qed.

(** The test of the component, [v !== '' && v !== null && !isNaN(v)]: it
    leaves [undefined] to [isNaN]. *)
Lemma has_component (v : value) :
  (v !== blank)%js && (v !== Null)%js && negb (isNaN v) = present v.
Proof.
  rewrite strict_ne_empty, strict_ne_Null.
  unfold present, numeric.
  destruct v as [| | b | x | s]; try reflexivity;
    cbn [provided empty]; destruct (isNaN _); cbn;
    rewrite ?andb_true_r, ?andb_false_r; reflexivity.
Qed.

(** Marks that are present and numeric and are not read as tested: a blank
    and [true] are the numbers 0 and 1 for the test and do not parse, the
    literal ["0x10"] is 16 for the test and parses to 0. *)
Lemma marks_not_read_as_tested :
  (present (Str " ") = true /\ ~ read_as_tested (Str " "))
  /\ (present (Str "0x10") = true /\ ~ read_as_tested (Str "0x10"))
  /\ (present (Boolean true) = true /\ ~ read_as_tested (Boolean true)).
Proof.
  repeat split; try (vm_compute; reflexivity);
    unfold read_as_tested; vm_compute; discriminate.
Qed.

(** A decimal text is read as tested. *)
Lemma decimal_read_as_tested :
  read_as_tested (Str "12") /\ read_as_tested (Str "12.5")
  /\ read_as_tested (Str "0") /\ read_as_tested (Number (Js.of_N 14)).
Proof. repeat split; vm_compute; reflexivity. Qed.

(** ** The two subject averages, branch by branch *)

Lemma calculerMoyenne_cases (cc tp exam : value) :
  calculerMoyenne (mk_notes cc tp exam) =
  Js.toFixed
    (if present cc && present tp then
       (parseFloat cc * lit_0_3 + parseFloat tp * lit_0_2
        + exam_page exam * lit_0_5)%js
     else if present cc then
       (parseFloat cc * lit_0_4 + exam_page exam * lit_0_6)%js
     else if present tp then
       (parseFloat tp * lit_0_4 + exam_page exam * lit_0_6)%js
     else exam_page exam) 2.
Proof.
  unfold calculerMoyenne, mk_notes, exam_page.
  cbn [notes_cc notes_tp notes_exam].
  cbv zeta. rewrite !has_page.
  destruct (present cc), (present tp); reflexivity.
Qed.

Lemma calculateAverage_cases (cc tp exam : value) :
  calculateAverage cc tp exam =
  if present cc && present tp then
    (parseFloat cc * lit_0_3 + parseFloat tp * lit_0_2
     + exam_component exam * lit_0_5)%js
  else if present cc then
    (parseFloat cc * lit_0_4 + exam_component exam * lit_0_6)%js
  else if present tp then
    (parseFloat tp * lit_0_4 + exam_component exam * lit_0_6)%js
  else exam_component exam.
Proof.
  unfold calculateAverage, exam_component. cbv zeta. rewrite !has_component.
  destruct (present cc), (present tp); reflexivity.
Qed.

(** ** Arithmetic facts *)

Lemma mul_comm (x y : Js.number) : (x * y)%js = (y * x)%js.
Proof.
  unfold Js.mul.
  destruct x as [sx | sx | | sx mx ex], y as [sy | sy | | sy my ey];
    cbn [SFmul]; rewrite ?(xorb_comm sx sy); try reflexivity.
  now rewrite (Pos.mul_comm mx my), (Z.add_comm ex ey).
Qed.

Lemma add_neg_zero (x : Js.number) : (x + Js.neg_zero)%js = x.
Proof. destruct x as [[|] | [|] | | s m e]; reflexivity. Qed.

Lemma add_zero (x : Js.number) :
  (x + Js.zero)%js = match x with S754_zero _ => Js.zero | _ => x end.
Proof. destruct x as [[|] | [|] | | s m e]; reflexivity. Qed.

Lemma toFixed_zero (s : bool) (fd : nat) :
  Js.toFixed (S754_zero s) fd = Js.toFixed Js.zero fd.
Proof. reflexivity. Qed.

(** Adding either zero to a number prints the same. *)
Lemma toFixed_add_zero (x : Js.number) (s : bool) (fd : nat) :
  Js.toFixed (x + S754_zero s)%js fd = Js.toFixed (x + Js.zero)%js fd.
Proof.
  destruct s; [| reflexivity].
  change (S754_zero true) with Js.neg_zero.
  rewrite add_neg_zero, add_zero. destruct x; reflexivity.
Qed.

Lemma or_else_cases (x : Js.number) :
  Js.or_else x lit_0 = x
  \/ (exists s, x = S754_zero s) /\ Js.or_else x lit_0 = Js.zero
  \/ x = Js.nan /\ Js.or_else x lit_0 = Js.zero.
Proof.
  destruct x as [s | s | | s m e]; cbn; auto.
  right; left; split; [exists s |]; reflexivity.
Qed.

Lemma num_eq_refl (x : Js.number) : Js.is_nan x = false -> Js.num_eq x x = true.
Proof.
  unfold Js.num_eq, SFeqb.
  destruct x as [s | s | | s m e]; cbn; try discriminate; intros _.
  - reflexivity.
  - destruct s; reflexivity.
  - destruct s; rewrite Z.compare_refl, Pos.compare_cont_refl; reflexivity.
Qed.

Lemma zero_mul_finite (s : bool) (m : positive) (e : Z) :
  (S754_zero s * S754_finite false m e)%js = S754_zero s.
Proof. destruct s; reflexivity. Qed.

Lemma lit_0_5_finite : lit_0_5 = S754_finite false 4503599627370496 (-53).
Proof. reflexivity. Qed.

Lemma lit_0_6_finite : lit_0_6 = S754_finite false 5404319552844595 (-53).
Proof. reflexivity. Qed.

(** ** Subject average: the three weightings *)

(** C1, as stated, fails on the page: with the marks "0", "0" and "0.25",
    all present and numeric, the weighted sum is 0.125 and
    [calculerMoyenne] returns "0.13", the sum rounded to two decimals
    inside the function. *)
Lemma calculerMoyenne_rounds_three_marks :
  present (notes_cc three_marks_input) = true
  /\ present (notes_tp three_marks_input) = true
  /\ (lit_0_3 * parseFloat (notes_cc three_marks_input)
      + lit_0_2 * parseFloat (notes_tp three_marks_input)
      + lit_0_5 * parseFloat (notes_exam three_marks_input))%js
     = Js.of_decimal false 125 (-3)
  /\ calculerMoyenne three_marks_input = "0.13"
  /\ parseFloat (Str (calculerMoyenne three_marks_input))
     <> Js.of_decimal false 125 (-3).
Proof.
  repeat split; try (vm_compute; reflexivity).
  vm_compute. discriminate.
Qed.

(** The exam mark of the component, [parseFloat(exam) || 0], is the exam
    mark itself when it parses to a number: equal to it under [===], and
    the very same value unless the mark is [-0], which becomes [+0]. *)
Lemma exam_component_parsed (exam : value) :
  Js.is_nan (parseFloat exam) = false ->
  Js.num_eq (exam_component exam) (parseFloat exam) = true
  /\ (parseFloat exam <> Js.neg_zero -> exam_component exam = parseFloat exam).
Proof.
  unfold exam_component.
  destruct (parseFloat exam) as [s | s | | s m e]; try discriminate; intros _.
  - split; [reflexivity |].
    destruct s; [intros H; now elim H | reflexivity].
  - split; [destruct s |]; reflexivity.
  - split; [| reflexivity].
    apply (num_eq_refl (S754_finite s m e)); reflexivity.
Qed.

(** C1, amended: when the continuous-assessment and the practical-work
    marks are both present and numeric and both are read as tested, and
    the exam mark parses to a number, [calculateAverage] returns exactly
    [0.3 * CC + 0.2 * TP + 0.5 * Exam] (binary64 products and sums, no
    decimal rounding) and [calculerMoyenne] returns that sum printed with
    two decimals by [toFixed(2)].  [CC] and [TP] are the numbers of the two
    marks, [Exam] the number the exam mark parses to; in the component an
    exam mark [-0] enters the sum as [+0]. *)
Theorem subject_average_three_marks (cc tp exam : value) :
  present cc = true ->
  present tp = true ->
  read_as_tested cc ->
  read_as_tested tp ->
  Js.is_nan (parseFloat exam) = false ->
  calculateAverage cc tp exam
  = (lit_0_3 * ToNumber cc + lit_0_2 * ToNumber tp
     + lit_0_5 * exam_component exam)%js
  /\ Js.num_eq (exam_component exam) (parseFloat exam) = true
  /\ (parseFloat exam <> Js.neg_zero -> exam_component exam = parseFloat exam)
  /\ calculerMoyenne (mk_notes cc tp exam)
     = Js.toFixed
         (lit_0_3 * ToNumber cc + lit_0_2 * ToNumber tp
          + lit_0_5 * parseFloat exam)%js 2.
Proof.
  intros Hcc Htp Rcc Rtp Hexam.
  destruct (exam_component_parsed exam Hexam) as [Heq Hsame].
  rewrite calculateAverage_cases, calculerMoyenne_cases, Hcc, Htp.
  cbn [andb]. unfold exam_page.
  rewrite <- Rcc, <- Rtp.
  rewrite !(mul_comm lit_0_3), !(mul_comm lit_0_2), !(mul_comm lit_0_5).
  repeat split; [exact Heq | exact Hsame].
Qed.

Lemma subject_average_three_marks_witness :
  calculateAverage (Str "12") (Str "14") (Str "10")
  = (lit_0_3 * ToNumber (Str "12") + lit_0_2 * ToNumber (Str "14")
     + lit_0_5 * exam_component (Str "10"))%js
  /\ Js.num_eq (exam_component (Str "10")) (parseFloat (Str "10")) = true
  /\ (parseFloat (Str "10") <> Js.neg_zero ->
      exam_component (Str "10") = parseFloat (Str "10"))
  /\ calculerMoyenne (mk_notes (Str "12") (Str "14") (Str "10"))
     = Js.toFixed
         (lit_0_3 * ToNumber (Str "12") + lit_0_2 * ToNumber (Str "14")
          + lit_0_5 * parseFloat (Str "10"))%js 2.
Proof.
  apply (subject_average_three_marks (Str "12") (Str "14") (Str "10"));
    vm_compute; reflexivity.
Defined.

(** C6, as stated, fails on the page: with the single mark "0" and the
    exam "0.01" the weighted sum [0.4 * 0 + 0.6 * 0.01] is 0.006 and
    [calculerMoyenne] returns "0.01". *)
Lemma calculerMoyenne_rounds_two_marks :
  present (notes_cc two_marks_input) = true
  /\ present (notes_tp two_marks_input) = false
  /\ (lit_0_4 * parseFloat (notes_cc two_marks_input)
      + lit_0_6 * parseFloat (notes_exam two_marks_input))%js
     = Js.of_decimal false 6 (-3)
  /\ calculerMoyenne two_marks_input = "0.01"
  /\ parseFloat (Str (calculerMoyenne two_marks_input))
     <> Js.of_decimal false 6 (-3).
Proof.
  repeat split; try (vm_compute; reflexivity).
  vm_compute. discriminate.
Qed.

(** C6, amended: when exactly one of the continuous-assessment and
    practical-work marks is present and numeric, that mark is read as
    tested and the exam mark parses to a number, [calculateAverage]
    returns exactly [0.4 * mark + 0.6 * Exam] and [calculerMoyenne]
    returns that sum printed with two decimals; in both programs the
    result is the same whether the mark is given as CC or as TP, whatever
    absent value fills the other field.  [mark] is the number of the mark,
    [Exam] the number the exam mark parses to; in the component an exam
    mark [-0] enters the sum as [+0]. *)
Theorem subject_average_two_marks (mark other other' exam : value) :
  present mark = true ->
  present other = false ->
  present other' = false ->
  read_as_tested mark ->
  Js.is_nan (parseFloat exam) = false ->
  calculateAverage mark other exam
  = (lit_0_4 * ToNumber mark + lit_0_6 * exam_component exam)%js
  /\ calculateAverage other' mark exam = calculateAverage mark other exam
  /\ Js.num_eq (exam_component exam) (parseFloat exam) = true
  /\ (parseFloat exam <> Js.neg_zero -> exam_component exam = parseFloat exam)
  /\ calculerMoyenne (mk_notes mark other exam)
     = Js.toFixed (lit_0_4 * ToNumber mark + lit_0_6 * parseFloat exam)%js 2
  /\ calculerMoyenne (mk_notes other' mark exam)
     = calculerMoyenne (mk_notes mark other exam).
Proof.
  intros Hm Ho Ho' Rm Hexam.
  destruct (exam_component_parsed exam Hexam) as [Heq Hsame].
  rewrite !calculateAverage_cases, !calculerMoyenne_cases, Hm, Ho, Ho'.
  cbn [andb]. unfold exam_page.
  rewrite <- Rm.
  rewrite !(mul_comm lit_0_4), !(mul_comm lit_0_6).
  repeat split; [exact Heq | exact Hsame].
Qed.

Lemma subject_average_two_marks_witness :
  calculateAverage (Str "6") blank (Str "4")
  = (lit_0_4 * ToNumber (Str "6") + lit_0_6 * exam_component (Str "4"))%js
  /\ calculateAverage Undefined (Str "6") (Str "4")
     = calculateAverage (Str "6") blank (Str "4")
  /\ Js.num_eq (exam_component (Str "4")) (parseFloat (Str "4")) = true
  /\ (parseFloat (Str "4") <> Js.neg_zero ->
      exam_component (Str "4") = parseFloat (Str "4"))
  /\ calculerMoyenne (mk_notes (Str "6") blank (Str "4"))
     = Js.toFixed
         (lit_0_4 * ToNumber (Str "6") + lit_0_6 * parseFloat (Str "4"))%js 2
  /\ calculerMoyenne (mk_notes Undefined (Str "6") (Str "4"))
     = calculerMoyenne (mk_notes (Str "6") blank (Str "4")).
Proof.
  apply (subject_average_two_marks (Str "6") blank Undefined (Str "4"));
    vm_compute; reflexivity.
Defined.

(** C7, as stated, fails on the page: with no other mark and the numeric
    exam "9.996", [calculerMoyenne] returns "10.00", not the exam mark. *)
Lemma calculerMoyenne_rounds_exam_only :
  present (notes_cc exam_only_input) = false
  /\ present (notes_tp exam_only_input) = false
  /\ parseFloat (notes_exam exam_only_input) = Js.of_decimal false 9996 (-3)
  /\ calculerMoyenne exam_only_input = "10.00"
  /\ Js.num_eq (parseFloat (Str (calculerMoyenne exam_only_input)))
       (parseFloat (notes_exam exam_only_input)) = false.
Proof. by_evaluation. Qed.

(** C7, amended: when neither the continuous-assessment nor the
    practical-work mark is present and the exam mark parses to a number,
    [calculateAverage] returns the exam mark unchanged (equal to it under
    [===], and the very same value unless the mark is [-0], which comes
    back as [+0]), and [calculerMoyenne] returns the exam mark printed
    with two decimals. *)
Theorem subject_average_exam_only (cc tp exam : value) :
  present cc = false ->
  present tp = false ->
  Js.is_nan (parseFloat exam) = false ->
  Js.num_eq (calculateAverage cc tp exam) (parseFloat exam) = true
  /\ (parseFloat exam <> Js.neg_zero ->
      calculateAverage cc tp exam = parseFloat exam)
  /\ calculerMoyenne (mk_notes cc tp exam) = Js.toFixed (parseFloat exam) 2.
Proof.
  intros Hcc Htp Hnum.
  rewrite calculateAverage_cases, calculerMoyenne_cases, Hcc, Htp.
  cbn [andb]. unfold exam_component, exam_page.
  destruct (parseFloat exam) as [s | s | | s m e]; try discriminate.
  - repeat split; try reflexivity.
    destruct s; [intros H; now elim H | reflexivity].
  - repeat split; try reflexivity. destruct s; reflexivity.
  - repeat split; try reflexivity.
    apply (num_eq_refl (S754_finite s m e)); reflexivity.
Qed.

Lemma subject_average_exam_only_witness :
  Js.num_eq (calculateAverage Undefined Undefined (Str "16"))
    (parseFloat (Str "16")) = true
  /\ (parseFloat (Str "16") <> Js.neg_zero ->
      calculateAverage Undefined Undefined (Str "16") = parseFloat (Str "16"))
  /\ calculerMoyenne (mk_notes Undefined Undefined (Str "16"))
     = Js.toFixed (parseFloat (Str "16")) 2.
Proof.
  apply (subject_average_exam_only Undefined Undefined (Str "16"));
    vm_compute; reflexivity.
Defined.

(** ** The page and the component agree up to display rounding *)

(** C10: for every triple of marks whose exam parses to a number, the
    string that [calculerMoyenne] returns is the result of
    [calculateAverage] printed with [toFixed(2)]. *)
Theorem calculerMoyenne_is_calculateAverage_toFixed (cc tp exam : value) :
  Js.is_nan (parseFloat exam) = false ->
  calculerMoyenne (mk_notes cc tp exam)
  = Js.toFixed (calculateAverage cc tp exam) 2.
Proof.
  intros Hnum.
  rewrite calculerMoyenne_cases, calculateAverage_cases.
  unfold exam_page, exam_component.
  destruct (or_else_cases (parseFloat exam)) as [H | [[[s Hs] H] | [Hn _]]].
  - rewrite H. reflexivity.
  - rewrite H, Hs. change Js.zero with (S754_zero false).
    rewrite lit_0_5_finite, lit_0_6_finite, !zero_mul_finite.
    destruct (present cc), (present tp); cbn [andb];
      first [apply toFixed_add_zero | apply toFixed_zero].
  - rewrite Hn in Hnum. discriminate.
Qed.

Lemma calculerMoyenne_is_calculateAverage_toFixed_witness :
  calculerMoyenne (mk_notes (Str "12.5") blank (Str "-0"))
  = Js.toFixed (calculateAverage (Str "12.5") blank (Str "-0")) 2.
Proof.
  apply (calculerMoyenne_is_calculateAverage_toFixed
           (Str "12.5") blank (Str "-0")).
  vm_compute; reflexivity.
Defined.

(** ** Status classification *)

Section Thresholds.

Lemma ge_finite (x : Js.number) (mc : positive) (ec : Z) :
  (x >= S754_finite false mc ec)%js = true <-> above mc ec x.
Proof.
  unfold Js.ge.
  destruct x as [s | [|] | | [|] m e]; cbn [SFcompare above];
    try (split; [discriminate | contradiction]);
    try (split; [trivial | reflexivity]).
  change (Pos.compare_cont Eq m mc) with (Pos.compare m mc).
  destruct (Z.compare_spec e ec) as [He | He | He].
  - destruct (Pos.compare_spec m mc) as [Hm | Hm | Hm]; split;
      try discriminate; try reflexivity; intros H; lia.
  - split; [discriminate | lia].
  - split; [intros _; lia | reflexivity].
Qed.

Lemma compare_defined (x y : Js.number) :
  Js.is_nan x = false -> Js.is_nan y = false -> SFcompare x y <> None.
Proof.
  destruct x as [s | s | | s m e], y as [s' | s' | | s' m' e'];
    cbn; intros; discriminate.
Qed.

(** Away from NaN, [x < y] is the negation of [x >= y]. *)
Lemma lt_not_ge (x y : Js.number) :
  Js.is_nan x = false -> Js.is_nan y = false ->
  (x < y)%js = negb (x >= y)%js.
Proof.
  intros Hx Hy. pose proof (compare_defined x y Hx Hy) as H.
  unfold Js.lt, Js.ge. destruct (SFcompare x y) as [[ | | ] |];
    try reflexivity. now elim H.
Qed.

Lemma lit_8_finite : lit_8 = S754_finite false 4503599627370496 (-49).
Proof. reflexivity. Qed.

Lemma lit_10_finite : lit_10 = S754_finite false 5629499534213120 (-49).
Proof. reflexivity. Qed.

Lemma lit_16_finite : lit_16 = S754_finite false 4503599627370496 (-48).
Proof. reflexivity. Qed.

Lemma ge_16_10 (x : Js.number) :
  (x >= lit_16)%js = true -> (x >= lit_10)%js = true.
Proof.
  rewrite lit_16_finite, lit_10_finite, !ge_finite.
  destruct x as [s | [|] | | [|] m e]; cbn [above]; trivial. lia.
Qed.

Lemma ge_10_8 (x : Js.number) :
  (x >= lit_10)%js = true -> (x >= lit_8)%js = true.
Proof.
  rewrite lit_10_finite, lit_8_finite, !ge_finite.
  destruct x as [s | [|] | | [|] m e]; cbn [above]; trivial. lia.
Qed.

End Thresholds.

Lemma getStyleParams_cascade (x : Js.number) :
  tier_of_label (getStyleParams x) = Some (cascade x).
Proof.
  unfold getStyleParams, cascade.
  destruct (x >= lit_16)%js; [reflexivity |].
  destruct (x >= lit_10)%js; [reflexivity |].
  destruct (x >= lit_8)%js; reflexivity.
Qed.

Lemma getStyleMoyenne_cascade (v : value) :
  tier_of_class (getStyleMoyenne v) = Some (cascade (parseFloat v)).
Proof.
  unfold getStyleMoyenne, cascade. cbv zeta.
  destruct (parseFloat v >= lit_16)%js; [reflexivity |].
  destruct (parseFloat v >= lit_10)%js; [reflexivity |].
  destruct (parseFloat v >= lit_8)%js; reflexivity.
Qed.

Lemma cascade_in_tier (x : Js.number) (t : tier) :
  Js.is_nan x = false -> cascade x = t <-> in_tier t x = true.
Proof.
  intros Hx. unfold cascade, in_tier.
  rewrite !(lt_not_ge x) by (assumption || reflexivity).
  pose proof (ge_16_10 x) as H1. pose proof (ge_10_8 x) as H2.
  destruct (x >= lit_16)%js, (x >= lit_10)%js, (x >= lit_8)%js,
    t; cbn; split; intros H; try reflexivity; try discriminate;
    try (specialize (H1 eq_refl); discriminate);
    try (specialize (H2 eq_refl); discriminate).
Qed.

(** C8: for every average that is a number (not NaN), the classification
    gives exactly one of the four tiers, with closed lower bounds:
    Excellent iff [avg >= 16], Good iff [10 <= avg < 16], Warning iff
    [8 <= avg < 10], Danger iff [avg < 8]; this holds of [getStyleParams]
    on the average and of [getStyleMoyenne] on any value that parses to
    it.  In particular 16.00 is Excellent, 15.99 and 10.00 are Good, 9.99
    and 8.00 are Warning and 7.99 is Danger, in both programs. *)
Theorem status_classification :
  (forall (x : Js.number) (t : tier),
      Js.is_nan x = false ->
      (tier_of_label (getStyleParams x) = Some t <-> in_tier t x = true)
      /\ (exists t0, in_tier t0 x = true
                     /\ forall t', in_tier t' x = true -> t' = t0))
  /\ (forall (v : value) (t : tier),
         Js.is_nan (parseFloat v) = false ->
         tier_of_class (getStyleMoyenne v) = Some t
         <-> in_tier t (parseFloat v) = true)
  /\ map (fun x => tier_of_label (getStyleParams x))
       [Js.of_decimal false 1600 (-2); Js.of_decimal false 1599 (-2);
        Js.of_decimal false 1000 (-2); Js.of_decimal false 999 (-2);
        Js.of_decimal false 800 (-2); Js.of_decimal false 799 (-2)]
     = [Some Excellent; Some Good; Some Good; Some Warning; Some Warning;
        Some Danger]
  /\ map (fun s => tier_of_class (getStyleMoyenne (Str s)))
       ["16.00"; "15.99"; "10.00"; "9.99"; "8.00"; "7.99"]
     = [Some Excellent; Some Good; Some Good; Some Warning; Some Warning;
        Some Danger].
Proof.
  split; [| split; [| split; vm_compute; reflexivity]].
  - intros x t Hx. split.
    + rewrite getStyleParams_cascade.
      rewrite <- (cascade_in_tier x t Hx).
      split; [intros [= H]; exact H | intros H; now rewrite H].
    + exists (cascade x). split.
      * now apply (cascade_in_tier x (cascade x) Hx).
      * intros t' H. symmetry. now apply (cascade_in_tier x t' Hx).
  - intros v t Hv. rewrite getStyleMoyenne_cascade.
    rewrite <- (cascade_in_tier (parseFloat v) t Hv).
    split; [intros [= H]; exact H | intros H; now rewrite H].
Qed.

Lemma status_classification_witness :
  (tier_of_label (getStyleParams lit_16) = Some Excellent
   <-> in_tier Excellent lit_16 = true)
  /\ (exists t0, in_tier t0 lit_16 = true
                 /\ forall t', in_tier t' lit_16 = true -> t' = t0).
Proof.
  apply (proj1 status_classification lit_16 Excellent). reflexivity.
Defined.

(** ** Sums and counts over the collection *)

Section Lists.

Context {A B : Type}.

Lemma fold_left_add_map (f : A -> Js.number) (l : list A) (a : Js.number) :
  fold_left (fun acc x => (acc + f x)%js) l a = fold_left Js.add (map f l) a.
Proof.
  revert a. induction l as [| x l IH]; intros a; [reflexivity |].
  cbn [fold_left map]. apply IH.
Qed.

Lemma length_filter_count (p : A -> bool) (l : list A) :
  List.length (filter p l) = count p l.
Proof.
  induction l as [| a l IH]; [reflexivity |].
  cbn [filter count]. destruct (p a); cbn [List.length]; now rewrite IH.
Qed.

Lemma count_map (f : A -> B) (p : B -> bool) (l : list A) :
  count p (map f l) = count (fun a => p (f a)) l.
Proof.
  induction l as [| a l IH]; [reflexivity |].
  cbn [map count]. now rewrite IH.
Qed.

End Lists.

Lemma totalCoef_sum (gs : list grade) :
  totalCoef gs = js_sum (map coef_of gs).
Proof. apply (fold_left_add_map coef_of). Qed.

Lemma totalPoints_sum (gs : list grade) :
  totalPoints gs
  = js_sum (map (fun g => component_average g * coef_of g)%js gs).
Proof.
  apply (fold_left_add_map (fun g => component_average g * coef_of g)%js).
Qed.

Lemma validatedCount_count (gs : list grade) :
  validatedCount gs = count (fun g => (component_average g >= lit_10)%js) gs.
Proof. apply length_filter_count. Qed.

Lemma dangerCount_count (gs : list grade) :
  dangerCount gs = count (fun g => (component_average g < lit_8)%js) gs.
Proof. apply length_filter_count. Qed.

(** The loop of [updateStats] runs the two sums and the two counts side by
    side. *)
Lemma updateStats_loop (gs : list grade) (t : totals) :
  fold_left updateStats_step gs t =
  {| totalPoints_acc :=
       fold_left Js.add (map (fun g => page_average g * coef_of g)%js gs)
         (totalPoints_acc t);
     totalCoef_acc := fold_left Js.add (map coef_of gs) (totalCoef_acc t);
     validated :=
       validated t + count (fun g => (page_average g >= lit_10)%js) gs;
     danger := danger t + count (fun g => (page_average g < lit_8)%js) gs |}.
Proof.
  revert t. induction gs as [| g gs IH]; intros t.
  - destruct t; cbn. now rewrite !Nat.add_0_r.
  - cbn [fold_left]. rewrite IH. unfold updateStats_step at 1 2 3 4.
    cbn [totalPoints_acc totalCoef_acc validated danger map fold_left count].
    fold (page_average g) (coef_of g). unfold mk_notes.
    f_equal.
    + destruct (_ >= _)%js; lia.
    + destruct (_ < _)%js; lia.
Qed.

Lemma generalAvg_render (gs : list grade) :
  generalAvg gs =
  render_general
    (js_sum (map (fun g => component_average g * coef_of g)%js gs))
    (js_sum (map coef_of gs)).
Proof.
  unfold generalAvg. rewrite totalCoef_sum, totalPoints_sum. reflexivity.
Qed.

Lemma updateStats_nonempty (p : page) :
  grades p <> [] ->
  generalAverageEl (updateStats p) =
    render_general
      (js_sum (map (fun g => page_average g * coef_of g)%js (grades p)))
      (js_sum (map coef_of (grades p)))
  /\ validatedCountEl (updateStats p) =
       string_of_nat
         (count (fun g => (page_average g >= lit_10)%js) (grades p))
  /\ dangerCountEl (updateStats p) =
       string_of_nat (count (fun g => (page_average g < lit_8)%js) (grades p)).
Proof.
  intros Hne. unfold updateStats.
  destruct (grades p) as [| g gs] eqn:E; [now elim Hne |].
  cbv zeta. cbn [generalAverageEl validatedCountEl dangerCountEl].
  fold start. rewrite updateStats_loop.
  cbn [start totalPoints_acc totalCoef_acc validated danger].
  repeat split; reflexivity.
Qed.

Lemma updateStats_empty (p : page) :
  grades p = [] ->
  generalAverageEl (updateStats p) = "-"
  /\ validatedCountEl (updateStats p) = "-"
  /\ dangerCountEl (updateStats p) = "-".
Proof. intros E. unfold updateStats. rewrite E. repeat split; reflexivity. Qed.

(** The counts read the three marks of each entry and nothing else. *)
Lemma count_scores (f : value * value * value -> bool) (gs gs' : list grade) :
  map scores gs = map scores gs' ->
  count (fun g => f (scores g)) gs = count (fun g => f (scores g)) gs'.
Proof. intros H. rewrite <- !(count_map scores f), H. reflexivity. Qed.

Lemma component_counts_by_scores (c : Js.number -> bool)
    (gs gs' : list grade) :
  map scores gs = map scores gs' ->
  count (fun g => c (component_average g)) gs
  = count (fun g => c (component_average g)) gs'.
Proof.
  exact (count_scores (fun m => c (scores_component_average m)) gs gs').
Qed.

Lemma page_counts_by_scores (c : Js.number -> bool) (gs gs' : list grade) :
  map scores gs = map scores gs' ->
  count (fun g => c (page_average g)) gs
  = count (fun g => c (page_average g)) gs'.
Proof. exact (count_scores (fun m => c (scores_page_average m)) gs gs'). Qed.

(** ** General average *)

(** C3, as stated, fails twice.  A coefficient sum of 0 does not empty
    the counts: one entry with exam 16 and coefficient 0 is counted as
    validated by both programs.  And a negative coefficient is not left
    out: with exams 10 and 20 and coefficients 3 and -1 both programs
    display (30 - 20) / 2 = "5.00", where the mean over the non-negative
    coefficients is 10. *)
Lemma general_average_takes_every_coefficient :
  Js.num_eq (totalCoef zero_coef_grades) lit_0 = true
  /\ validatedCount zero_coef_grades = 1%nat
  /\ validatedCountEl (updateStats (fresh_page zero_coef_grades)) = "1"
  /\ generalAvg negative_coef_grades = "5.00"
  /\ generalAverageEl (updateStats (fresh_page negative_coef_grades)) = "5.00"
  /\ Js.toFixed (spec_generalAverage component_average negative_coef_grades) 2
     = "10.00".
Proof. by_evaluation. Qed.

(** C3, amended: for every collection, the general average is the weighted
    mean [sum (avg_i * coef_i) / sum coef_i] printed with two decimals,
    both sums running over all the entries, from 0 and in order, each
    coefficient read by [parseFloat], whenever the coefficient sum is
    greater than 0, and it is "0.00" otherwise (a sum that is zero,
    negative or NaN).  The subject average is the component's in the
    component and the displayed one in the page.  The two counts do not
    depend on the coefficients: two collections with the same marks, entry
    by entry, have the same counts in the component and the same two count
    texts on the page, whatever their coefficients.  For the empty
    collection the component gives "0.00" and two counts of 0, and the page
    writes "-" in the three places. *)
Theorem general_average_weighted (gs : list grade) :
  generalAvg gs
  = render_general
      (js_sum (map (fun g => component_average g * coef_of g)%js gs))
      (js_sum (map coef_of gs))
  /\ ((js_sum (map coef_of gs) > lit_0)%js = false -> generalAvg gs = "0.00")
  /\ (forall p : page,
         grades p = gs -> gs <> [] ->
         generalAverageEl (updateStats p)
         = render_general
             (js_sum (map (fun g => page_average g * coef_of g)%js gs))
             (js_sum (map coef_of gs)))
  /\ (generalAvg [] = "0.00" /\ validatedCount [] = 0%nat
      /\ dangerCount [] = 0%nat)
  /\ (forall p : page,
         grades p = [] ->
         generalAverageEl (updateStats p) = "-"
         /\ validatedCountEl (updateStats p) = "-"
         /\ dangerCountEl (updateStats p) = "-")
  /\ (forall gs' : list grade,
         map scores gs = map scores gs' ->
         validatedCount gs = validatedCount gs'
         /\ dangerCount gs = dangerCount gs')
  /\ (forall p p' : page,
         grades p = gs ->
         map scores gs = map scores (grades p') ->
         validatedCountEl (updateStats p) = validatedCountEl (updateStats p')
         /\ dangerCountEl (updateStats p) = dangerCountEl (updateStats p')).
Proof.
  split; [apply generalAvg_render |].
  split.
  { intros H. rewrite generalAvg_render. unfold render_general. now rewrite H. }
  split.
  { intros p E Hne. subst gs. now apply updateStats_nonempty. }
  split; [repeat split; reflexivity |].
  split; [apply updateStats_empty |].
  split.
  { intros gs' H. rewrite !validatedCount_count, !dangerCount_count. split.
    - apply (component_counts_by_scores (fun x => (x >= lit_10)%js) gs gs' H).
    - apply (component_counts_by_scores (fun x => (x < lit_8)%js) gs gs' H). }
  intros p p' E H. subst gs.
  destruct (grades p) as [| g gs] eqn:Eg, (grades p') as [| g' gs'] eqn:Eg';
    try discriminate.
  - destruct (updateStats_empty p Eg) as (_ & -> & ->).
    destruct (updateStats_empty p' Eg') as (_ & -> & ->).
    split; reflexivity.
  - assert (Hne : grades p <> []) by (rewrite Eg; discriminate).
    assert (Hne' : grades p' <> []) by (rewrite Eg'; discriminate).
    destruct (updateStats_nonempty p Hne) as (_ & -> & ->).
    destruct (updateStats_nonempty p' Hne') as (_ & -> & ->).
    rewrite Eg, Eg'.
    rewrite (page_counts_by_scores (fun x => (x >= lit_10)%js) _ _ H).
    rewrite (page_counts_by_scores (fun x => (x < lit_8)%js) _ _ H).
    split; reflexivity.
Qed.

Lemma general_average_weighted_witness :
  generalAvg zero_coef_grades = "0.00"
  /\ generalAverageEl (updateStats (fresh_page negative_coef_grades))
     = render_general
         (js_sum (map (fun g => page_average g * coef_of g)%js
                    negative_coef_grades))
         (js_sum (map coef_of negative_coef_grades))
  /\ (validatedCount zero_coef_grades
      = validatedCount [entry blank blank (Str "16") (Str "3")]
      /\ dangerCount zero_coef_grades
         = dangerCount [entry blank blank (Str "16") (Str "3")])
  /\ (validatedCountEl (updateStats (fresh_page zero_coef_grades))
      = validatedCountEl
          (updateStats (fresh_page [entry blank blank (Str "16") (Str "-1")]))
      /\ dangerCountEl (updateStats (fresh_page zero_coef_grades))
         = dangerCountEl
             (updateStats
                (fresh_page [entry blank blank (Str "16") (Str "-1")]))).
Proof.
  split.
  { apply (proj1 (proj2 (general_average_weighted zero_coef_grades))).
    vm_compute; reflexivity. }
  split.
  { apply (proj1 (proj2 (proj2 (general_average_weighted negative_coef_grades)))
             (fresh_page negative_coef_grades)).
    - reflexivity.
    - vm_compute; discriminate. }
  split.
  { apply (proj1 (proj2 (proj2 (proj2 (proj2 (proj2
             (general_average_weighted zero_coef_grades))))))).
    vm_compute; reflexivity. }
  apply (proj2 (proj2 (proj2 (proj2 (proj2 (proj2
           (general_average_weighted zero_coef_grades))))))
           (fresh_page zero_coef_grades)).
  - reflexivity.
  - vm_compute; reflexivity.
Defined.

(** ** Validated and danger counts *)

(** C4, as stated, fails on the page: a single entry whose exact average
    is 9.996, below 10, is counted as validated by [updateStats], which
    compares the displayed average "10.00"; the component counts none. *)
Lemma updateStats_counts_displayed_average :
  map component_average near_pass_grades = [Js.of_decimal false 9996 (-3)]
  /\ (Js.of_decimal false 9996 (-3) >= lit_10)%js = false
  /\ validatedCountEl (updateStats (fresh_page near_pass_grades)) = "1"
  /\ validatedCount near_pass_grades = 0%nat.
Proof. by_evaluation. Qed.

Lemma warning_not_counted (x : Js.number) :
  in_tier Warning x = true ->
  (x >= lit_10)%js = false /\ (x < lit_8)%js = false.
Proof.
  cbn [in_tier]. unfold Js.lt, Js.ge. intros H.
  apply andb_prop in H. destruct H as [H8 H10].
  destruct (SFcompare x lit_10) as [[ | | ] |]; try discriminate.
  destruct (SFcompare x lit_8) as [[ | | ] |]; try discriminate;
    split; reflexivity.
Qed.

(** C4, amended: in the component, [validatedCount] is the number of
    entries whose exact subject average is at least 10 and [dangerCount]
    the number whose exact average is below 8; in the page, the two counts
    are taken the same way on the displayed average, the subject average
    rounded to two decimals.  In both programs an entry whose average (the
    one the program compares) lies in [8, 10) adds to neither count. *)
Theorem pass_fail_counts (gs : list grade) :
  validatedCount gs = count (fun g => (component_average g >= lit_10)%js) gs
  /\ dangerCount gs = count (fun g => (component_average g < lit_8)%js) gs
  /\ (forall p : page,
         grades p = gs -> gs <> [] ->
         validatedCountEl (updateStats p)
         = string_of_nat (count (fun g => (page_average g >= lit_10)%js) gs)
         /\ dangerCountEl (updateStats p)
            = string_of_nat (count (fun g => (page_average g < lit_8)%js) gs))
  /\ (forall g : grade,
         in_tier Warning (component_average g) = true ->
         validatedCount (g :: gs) = validatedCount gs
         /\ dangerCount (g :: gs) = dangerCount gs)
  /\ (forall g : grade,
         in_tier Warning (page_average g) = true ->
         count (fun g => (page_average g >= lit_10)%js) (g :: gs)
         = count (fun g => (page_average g >= lit_10)%js) gs
         /\ count (fun g => (page_average g < lit_8)%js) (g :: gs)
            = count (fun g => (page_average g < lit_8)%js) gs).
Proof.
  split; [apply validatedCount_count |].
  split; [apply dangerCount_count |].
  split.
  { intros p E Hne. subst gs.
    destruct (updateStats_nonempty p Hne) as (_ & Hv & Hd). now split. }
  split.
  - intros g Hg. destruct (warning_not_counted _ Hg) as [H10 H8].
    rewrite !validatedCount_count, !dangerCount_count. cbn [count].
    now rewrite H10, H8.
  - intros g Hg. destruct (warning_not_counted _ Hg) as [H10 H8].
    cbn [count]. now rewrite H10, H8.
Qed.

Lemma pass_fail_counts_witness :
  validatedCount [entry blank blank (Str "9") (Str "1")] = validatedCount []
  /\ dangerCount [entry blank blank (Str "9") (Str "1")] = dangerCount [].
Proof.
  apply (proj1 (proj2 (proj2 (proj2 (pass_fail_counts []))))
           (entry blank blank (Str "9") (Str "1"))).
  vm_compute; reflexivity.
Defined.

(** ** The scenario of the specification *)

(** C5, as stated, fails: the first subject average
    [0.3 * 12 + 0.2 * 14 + 0.5 * 10] is 3.6 + 2.8 + 5 = 11.4, not 10.4,
    and the general average (22.8 + 16 + 4.8) / 4 is 10.9, not 10.4. *)
Lemma scenario_first_average_is_11_4 :
  map component_average scenario
  <> [Js.of_decimal false 104 (-1); Js.of_N 16; Js.of_decimal false 48 (-1)]
  /\ hd_error (map component_average scenario)
     = Some (Js.of_decimal false 114 (-1))
  /\ hd_error
       (map (fun g => calculerMoyenne (mk_notes (cc g) (tp g) (exam g)))
          scenario) = Some "11.40"
  /\ generalAvg scenario <> "10.40"
  /\ generalAverageEl (updateStats (fresh_page scenario)) <> "10.40".
Proof.
  repeat split; try (vm_compute; reflexivity); vm_compute; discriminate.
Qed.

(** C5, amended: on this collection the subject averages are 11.4, 16 and
    4.8 (displayed "11.40", "16.00" and "4.80"; the component's third
    number is the binary64 value printed 4.800000000000001), the general
    average is "10.90", [validatedCount] is 2 and [dangerCount] is 1, in
    both programs. *)
Theorem scenario_results :
  map (fun g => calculerMoyenne (mk_notes (cc g) (tp g) (exam g))) scenario
  = ["11.40"; "16.00"; "4.80"]
  /\ map (fun g => Js.toFixed (component_average g) 2) scenario
     = ["11.40"; "16.00"; "4.80"]
  /\ map (fun g => Js.Number_toString (component_average g)) scenario
     = ["11.4"; "16"; "4.800000000000001"]
  /\ generalAvg scenario = "10.90"
  /\ validatedCount scenario = 2%nat
  /\ dangerCount scenario = 1%nat
  /\ generalAverageEl (updateStats (fresh_page scenario)) = "10.90"
  /\ validatedCountEl (updateStats (fresh_page scenario)) = "2"
  /\ dangerCountEl (updateStats (fresh_page scenario)) = "1".
Proof. by_evaluation. Qed.

(** ** A missing exam mark *)

(** The component never lets the exam mark be NaN. *)
Lemma exam_component_number (exam : value) :
  Js.is_nan (exam_component exam) = false.
Proof.
  unfold exam_component. destruct (parseFloat exam); reflexivity.
Qed.

(** C2 on the code: with an empty exam field [calculerMoyenne] returns
    "NaN", where [calculateAverage], which reads the exam with
    [parseFloat(exam) || 0], returns 0; one such entry turns the general
    average of the page into "NaN".  In the component a mark that is a
    blank string passes the [isNaN] test and is then read as NaN by
    [parseFloat]. *)
Lemma calculerMoyenne_missing_exam_NaN :
  calculerMoyenne (mk_notes blank blank blank) = "NaN"
  /\ calculateAverage blank blank blank = Js.zero
  /\ generalAverageEl (updateStats (fresh_page missing_exam_grades)) = "NaN"
  /\ generalAvg missing_exam_grades = "7.60"
  /\ calculateAverage (Str " ") blank (Str "10") = Js.nan.
Proof. by_evaluation. Qed.

(** ** What the computations read *)

Lemma map_marks {B : Type} (f : value * value * value * value -> B)
    (gs gs' : list grade) :
  map marks gs = map marks gs' ->
  map (fun g => f (marks g)) gs = map (fun g => f (marks g)) gs'.
Proof. intros H. rewrite <- !(map_map marks f), H. reflexivity. Qed.

Lemma count_marks (f : value * value * value * value -> bool)
    (gs gs' : list grade) :
  map marks gs = map marks gs' ->
  count (fun g => f (marks g)) gs = count (fun g => f (marks g)) gs'.
Proof. intros H. rewrite <- !(count_map marks f), H. reflexivity. Qed.

Lemma coefs_by_marks (gs gs' : list grade) :
  map marks gs = map marks gs' -> map coef_of gs = map coef_of gs'.
Proof. exact (map_marks marks_coef gs gs'). Qed.

Lemma component_points_by_marks (gs gs' : list grade) :
  map marks gs = map marks gs' ->
  map (fun g => component_average g * coef_of g)%js gs
  = map (fun g => component_average g * coef_of g)%js gs'.
Proof.
  exact (map_marks (fun m => marks_component_average m * marks_coef m)%js
           gs gs').
Qed.

Lemma page_points_by_marks (gs gs' : list grade) :
  map marks gs = map marks gs' ->
  map (fun g => page_average g * coef_of g)%js gs
  = map (fun g => page_average g * coef_of g)%js gs'.
Proof.
  exact (map_marks (fun m => marks_page_average m * marks_coef m)%js gs gs').
Qed.

Lemma component_counts_by_marks (c : Js.number -> bool) (gs gs' : list grade) :
  map marks gs = map marks gs' ->
  count (fun g => c (component_average g)) gs
  = count (fun g => c (component_average g)) gs'.
Proof. exact (count_marks (fun m => c (marks_component_average m)) gs gs'). Qed.

Lemma page_counts_by_marks (c : Js.number -> bool) (gs gs' : list grade) :
  map marks gs = map marks gs' ->
  count (fun g => c (page_average g)) gs
  = count (fun g => c (page_average g)) gs'.
Proof. exact (count_marks (fun m => c (marks_page_average m)) gs gs'). Qed.

Lemma updateStats_grades (p : page) : grades (updateStats p) = grades p.
Proof. unfold updateStats. destruct (grades p); reflexivity. Qed.

Lemma updateStats_idempotent (p : page) :
  updateStats (updateStats p) = updateStats p.
Proof.
  unfold updateStats at 1. rewrite updateStats_grades.
  unfold updateStats. destruct (grades p) as [| g gs]; reflexivity.
Qed.

(** The colour that [updateStats] gives the general average of a
    collection that is not empty follows from the text it has just
    written. *)
Lemma updateStats_colour (p : page) :
  grades p <> [] ->
  generalAverageEl_color (updateStats p)
  = if String.eqb
         (class (getStyleMoyenne (Str (generalAverageEl (updateStats p)))))
         "grade-excellent"
    then "#d4edda" else "white".
Proof.
  intros Hne. unfold updateStats.
  destruct (grades p) as [| g gs]; [now elim Hne | reflexivity].
Qed.

(** * Further properties of the code *)

(** ** Counts *)

Lemma validated_not_danger (x : Js.number) :
  (x >= lit_10)%js = true -> (x < lit_8)%js = false.
Proof.
  intros H. apply ge_10_8 in H. revert H. unfold Js.ge, Js.lt.
  destruct (SFcompare x lit_8) as [[ | | ] |]; (discriminate || reflexivity).
Qed.

Lemma count_disjoint {A : Type} (p q : A -> bool) (l : list A) :
  (forall a, p a = true -> q a = false) ->
  (count p l + count q l <= List.length l)%nat.
Proof.
  intros H. induction l as [| a l IH]; [apply Nat.le_refl |].
  cbn [count List.length]. specialize (H a).
  destruct (p a), (q a); try (specialize (H eq_refl); discriminate); lia.
Qed.

(** X1: no entry is counted twice.  In the component
    [validatedCount + dangerCount] never exceeds the number of entries,
    and neither does the sum of the two counters that the loop of
    [updateStats] leaves. *)
Theorem counts_within_collection (gs : list grade) :
  (validatedCount gs + dangerCount gs <= List.length gs)%nat
  /\ (validated (fold_left updateStats_step gs start)
      + danger (fold_left updateStats_step gs start) <= List.length gs)%nat.
Proof.
  split.
  - rewrite validatedCount_count, dangerCount_count.
    apply count_disjoint. intros g. apply validated_not_danger.
  - rewrite updateStats_loop. cbn [validated danger start].
    apply (count_disjoint (fun g => (page_average g >= lit_10)%js)
             (fun g => (page_average g < lit_8)%js)).
    intros g. apply validated_not_danger.
Qed.

(** ** NaN in the sums *)

Lemma add_nan_r (x : Js.number) : (x + Js.nan)%js = Js.nan.
Proof. destruct x; reflexivity. Qed.

Lemma add_nan_l (x : Js.number) : (Js.nan + x)%js = Js.nan.
Proof. destruct x; reflexivity. Qed.

Lemma mul_nan_l (x : Js.number) : (Js.nan * x)%js = Js.nan.
Proof. destruct x; reflexivity. Qed.

Lemma mul_nan_r (x : Js.number) : (x * Js.nan)%js = Js.nan.
Proof. destruct x; reflexivity. Qed.

Lemma div_nan_l (x : Js.number) : (Js.nan / x)%js = Js.nan.
Proof. destruct x; reflexivity. Qed.

Lemma is_nan_eq (x : Js.number) : Js.is_nan x = true -> x = Js.nan.
Proof. destruct x; (discriminate || reflexivity). Qed.

Lemma fold_add_nan (l : list Js.number) : fold_left Js.add l Js.nan = Js.nan.
Proof.
  induction l as [| x l IH]; [reflexivity |].
  cbn [fold_left]. now rewrite add_nan_l.
Qed.

(** Once a term of a sum is NaN, the sum is NaN. *)
Lemma fold_add_In_nan (l : list Js.number) (a : Js.number) :
  In Js.nan l -> fold_left Js.add l a = Js.nan.
Proof.
  revert a. induction l as [| x l IH]; intros a; [intros [] |].
  intros [-> | H]; cbn [fold_left].
  - rewrite add_nan_r. apply fold_add_nan.
  - now apply IH.
Qed.

Lemma coefs_nan (gs : list grade) (g : grade) :
  In g gs -> Js.is_nan (coef_of g) = true ->
  js_sum (map coef_of gs) = Js.nan.
Proof.
  intros Hin Hnan. apply fold_add_In_nan.
  rewrite <- (is_nan_eq _ Hnan). now apply in_map.
Qed.

(** X2: one coefficient that does not parse (an empty field, for one)
    takes the general average away.  Whatever the other entries, the
    coefficient sum is NaN, and both programs display "0.00". *)
Theorem unparsed_coefficient_zeroes_general_average
    (gs : list grade) (g : grade) :
  In g gs ->
  Js.is_nan (parseFloat (coef g)) = true ->
  totalCoef gs = Js.nan
  /\ generalAvg gs = "0.00"
  /\ forall p : page,
       grades p = gs -> generalAverageEl (updateStats p) = "0.00".
Proof.
  intros Hin Hnan. pose proof (coefs_nan gs g Hin Hnan) as Hsum.
  split; [now rewrite totalCoef_sum |].
  split.
  - rewrite generalAvg_render, Hsum. reflexivity.
  - intros p E. assert (Hne : grades p <> []).
    { rewrite E. intros ->. destruct Hin. }
    destruct (updateStats_nonempty p Hne) as (-> & _).
    rewrite E, Hsum. reflexivity.
Qed.

Lemma unparsed_coefficient_zeroes_general_average_witness :
  totalCoef
    [entry blank blank (Str "16") (Str "2"); entry blank blank (Str "12") blank]
  = Js.nan
  /\ generalAvg
       [entry blank blank (Str "16") (Str "2");
        entry blank blank (Str "12") blank] = "0.00"
  /\ forall p : page,
       grades p
       = [entry blank blank (Str "16") (Str "2");
          entry blank blank (Str "12") blank] ->
       generalAverageEl (updateStats p) = "0.00".
Proof.
  apply (unparsed_coefficient_zeroes_general_average
           [entry blank blank (Str "16") (Str "2");
            entry blank blank (Str "12") blank]
           (entry blank blank (Str "12") blank)).
  - right; left; reflexivity.
  - vm_compute; reflexivity.
Defined.

Lemma page_average_nan (g : grade) :
  Js.is_nan (parseFloat (exam g)) = true -> page_average g = Js.nan.
Proof.
  intros H. apply is_nan_eq in H. unfold page_average.
  rewrite calculerMoyenne_cases. unfold exam_page. rewrite H.
  rewrite !mul_nan_l, !add_nan_r.
  destruct (present (cc g)), (present (tp g)); reflexivity.
Qed.

(** X3: on the page, one entry whose exam does not parse takes the general
    average away in another way.  Its displayed average is "NaN", the sum
    of points is NaN, and as soon as the coefficient sum is above 0 the
    general average reads "NaN"; the component reads such an exam as 0 and
    its sum of points does not depend on what the field holds. *)
Theorem unparsed_exam_on_the_page (p : page) (g : grade) :
  In g (grades p) ->
  Js.is_nan (parseFloat (exam g)) = true ->
  (js_sum (map coef_of (grades p)) > lit_0)%js = true ->
  calculerMoyenne (mk_notes (cc g) (tp g) (exam g)) = "NaN"
  /\ generalAverageEl (updateStats p) = "NaN"
  /\ component_average g = calculateAverage (cc g) (tp g) blank.
Proof.
  intros Hin Hnan Hpos. split; [| split].
  - rewrite calculerMoyenne_cases. unfold exam_page.
    rewrite (is_nan_eq _ Hnan), !mul_nan_l, !add_nan_r.
    destruct (present (cc g)), (present (tp g)); reflexivity.
  - assert (Hne : grades p <> []).
    { intros E. rewrite E in Hin. destruct Hin. }
    destruct (updateStats_nonempty p Hne) as (-> & _).
    unfold render_general. rewrite Hpos.
    assert (Hpts :
      js_sum (map (fun g => page_average g * coef_of g)%js (grades p))
      = Js.nan).
    { apply fold_add_In_nan.
      apply (in_map (fun g => page_average g * coef_of g)%js) in Hin.
      now rewrite (page_average_nan g Hnan), mul_nan_l in Hin. }
    rewrite Hpts, div_nan_l. reflexivity.
  - unfold component_average. rewrite !calculateAverage_cases.
    unfold exam_component. now rewrite (is_nan_eq _ Hnan).
Qed.

Lemma unparsed_exam_on_the_page_witness :
  calculerMoyenne (mk_notes blank blank (Str "abs")) = "NaN"
  /\ generalAverageEl
       (updateStats
          (fresh_page
             [entry blank blank (Str "16") (Str "2");
              entry blank blank (Str "abs") (Str "1")])) = "NaN"
  /\ component_average (entry blank blank (Str "abs") (Str "1"))
     = calculateAverage blank blank blank.
Proof.
  apply (unparsed_exam_on_the_page
           (fresh_page
              [entry blank blank (Str "16") (Str "2");
               entry blank blank (Str "abs") (Str "1")])
           (entry blank blank (Str "abs") (Str "1"))).
  - right; left; reflexivity.
  - vm_compute; reflexivity.
  - vm_compute; reflexivity.
Defined.

(** ** Order of the tiers *)

Lemma above_ge (mc : positive) (ec : Z) (x y : Js.number) :
  (y >= x)%js = true -> above mc ec x -> above mc ec y.
Proof.
  unfold Js.ge.
  destruct x as [sx | [|] | | [|] m e]; cbn [above]; try contradiction;
    destruct y as [sy | [|] | | [|] m' e']; cbn [SFcompare above];
    try discriminate; trivial.
  change (Pos.compare_cont Eq m' m) with (Pos.compare m' m).
  destruct (Z.compare_spec e' e) as [He | He | He]; try discriminate.
  - destruct (Pos.compare_spec m' m) as [Hm | Hm | Hm]; try discriminate;
      intros _ H; lia.
  - intros _ H; lia.
Qed.

Lemma ge_threshold (c x y : Js.number) (mc : positive) (ec : Z) :
  c = S754_finite false mc ec ->
  (y >= x)%js = true -> (x >= c)%js = true -> (y >= c)%js = true.
Proof.
  intros -> Hyx. rewrite !ge_finite. now apply above_ge.
Qed.

Lemma cascade_monotone (x y : Js.number) :
  (y >= x)%js = true -> (tier_rank (cascade x) <= tier_rank (cascade y))%nat.
Proof.
  intros Hyx.
  pose proof (ge_threshold lit_16 x y _ _ lit_16_finite Hyx) as H16.
  pose proof (ge_threshold lit_10 x y _ _ lit_10_finite Hyx) as H10.
  pose proof (ge_threshold lit_8 x y _ _ lit_8_finite Hyx) as H8.
  pose proof (ge_16_10 y) as Hy1. pose proof (ge_10_8 y) as Hy2.
  unfold cascade.
  destruct (x >= lit_16)%js; [rewrite (H16 eq_refl); apply Nat.le_refl |].
  destruct (x >= lit_10)%js.
  { rewrite (H10 eq_refl). destruct (y >= lit_16)%js; cbn; lia. }
  destruct (x >= lit_8)%js.
  { rewrite (H8 eq_refl).
    destruct (y >= lit_16)%js, (y >= lit_10)%js; cbn; lia. }
  cbn; lia.
Qed.

(** X4: a higher average never gets a lower status.  When [y >= x], the
    tier that [getStyleParams] gives to [y] is at least the tier it gives
    to [x], and so it is for [getStyleMoyenne] on two values that parse to
    such numbers. *)
Theorem status_monotone :
  (forall (x y : Js.number) (t t' : tier),
      (y >= x)%js = true ->
      tier_of_label (getStyleParams x) = Some t ->
      tier_of_label (getStyleParams y) = Some t' ->
      (tier_rank t <= tier_rank t')%nat)
  /\ (forall (v w : value) (t t' : tier),
         (parseFloat w >= parseFloat v)%js = true ->
         tier_of_class (getStyleMoyenne v) = Some t ->
         tier_of_class (getStyleMoyenne w) = Some t' ->
         (tier_rank t <= tier_rank t')%nat).
Proof.
  split.
  - intros x y t t' H. rewrite !getStyleParams_cascade.
    intros [= <-] [= <-]. now apply cascade_monotone.
  - intros v w t t' H. rewrite !getStyleMoyenne_cascade.
    intros [= <-] [= <-]. now apply cascade_monotone.
Qed.

Lemma status_monotone_witness :
  (tier_rank Warning <= tier_rank Good)%nat.
Proof.
  apply (proj1 status_monotone (Js.of_decimal false 999 (-2)) lit_10);
    vm_compute; reflexivity.
Defined.

(** ** The component's handlers *)

Section ComponentHandlers.

Import Component.

Lemma totalCoef_app (gs : list grade) (g : grade) :
  totalCoef (gs ++ [g]) = (totalCoef gs + coef_of g)%js.
Proof. unfold totalCoef. now rewrite fold_left_app. Qed.

Lemma totalPoints_app (gs : list grade) (g : grade) :
  totalPoints (gs ++ [g])
  = (totalPoints gs + component_average g * coef_of g)%js.
Proof. unfold totalPoints. now rewrite fold_left_app. Qed.

Lemma count_app {A : Type} (p : A -> bool) (l l' : list A) :
  count p (l ++ l') = (count p l + count p l')%nat.
Proof.
  induction l as [| a l IH]; [reflexivity |].
  rewrite <- app_comm_cons. cbn [count]. rewrite IH. lia.
Qed.

Lemma count_filter_le {A : Type} (p q : A -> bool) (l : list A) :
  (count p (filter q l) <= count p l)%nat.
Proof.
  induction l as [| a l IH]; [apply Nat.le_refl |].
  cbn [filter count]. destruct (q a); cbn [count]; lia.
Qed.

Lemma handleSubmit_accepted (now : Js.number) (c : component) :
  ToBoolean (fd_subject (form c)) = true ->
  (fd_exam (form c) === blank)%js = false ->
  handleSubmit now c
  = {| grades := (grades c ++ [new_grade (form c) now])%list;
       form := initial_formData;
       espritGradeData := Some (grades c ++ [new_grade (form c) now])%list |}.
Proof. intros Hs He. unfold handleSubmit. cbv zeta. now rewrite Hs, He. Qed.

Lemma handleSubmit_rejected (now : Js.number) (c : component) :
  ToBoolean (fd_subject (form c)) = false
  \/ (fd_exam (form c) === blank)%js = true ->
  handleSubmit now c = c.
Proof.
  intros H. unfold handleSubmit. cbv zeta.
  destruct H as [-> | ->]; [reflexivity |]. now rewrite orb_true_r.
Qed.

(** X5: an accepted submission updates the aggregate by the new entry
    alone.  The entry is appended, the coefficient sum and the sum of
    points grow by its terms, each count grows by one exactly when its
    test holds of the new average, and the form goes back to its initial
    values. *)
Theorem submit_updates_aggregate (now : Js.number) (c : component) :
  ToBoolean (fd_subject (form c)) = true ->
  (fd_exam (form c) === blank)%js = false ->
  let g := new_grade (form c) now in
  let c' := handleSubmit now c in
  grades c' = (grades c ++ [g])%list
  /\ form c' = initial_formData
  /\ totalCoef (grades c') = (totalCoef (grades c) + coef_of g)%js
  /\ totalPoints (grades c')
     = (totalPoints (grades c) + component_average g * coef_of g)%js
  /\ validatedCount (grades c')
     = (validatedCount (grades c)
        + if (component_average g >= lit_10)%js then 1 else 0)%nat
  /\ dangerCount (grades c')
     = (dangerCount (grades c)
        + if (component_average g < lit_8)%js then 1 else 0)%nat.
Proof.
  intros Hs He g c'. unfold c'. rewrite (handleSubmit_accepted now c Hs He).
  cbn [grades form]. fold g.
  rewrite totalCoef_app, totalPoints_app.
  rewrite !validatedCount_count, !dangerCount_count, !count_app.
  cbn [count]. rewrite !Nat.add_0_r. repeat split; reflexivity.
Qed.

Lemma submit_updates_aggregate_witness :
  let c :=
    {| grades := [entry blank blank (Str "16") (Str "1")];
       form :=
         {| fd_subject := Str "Physique"; fd_coef := Number (Js.of_N 1);
            fd_cc := blank; fd_tp := Str "6"; fd_exam := Str "4" |};
       espritGradeData := None |} in
  let g := new_grade (form c) (Js.of_N 1700000000000) in
  let c' := handleSubmit (Js.of_N 1700000000000) c in
  grades c' = (grades c ++ [g])%list
  /\ form c' = initial_formData
  /\ totalCoef (grades c') = (totalCoef (grades c) + coef_of g)%js
  /\ totalPoints (grades c')
     = (totalPoints (grades c) + component_average g * coef_of g)%js
  /\ validatedCount (grades c')
     = (validatedCount (grades c)
        + if (component_average g >= lit_10)%js then 1 else 0)%nat
  /\ dangerCount (grades c')
     = (dangerCount (grades c)
        + if (component_average g < lit_8)%js then 1 else 0)%nat.
Proof.
  apply (submit_updates_aggregate (Js.of_N 1700000000000)
           {| grades := [entry blank blank (Str "16") (Str "1")];
              form :=
                {| fd_subject := Str "Physique";
                   fd_coef := Number (Js.of_N 1);
                   fd_cc := blank; fd_tp := Str "6"; fd_exam := Str "4" |};
              espritGradeData := None |}); reflexivity.
Defined.

Lemma Forall_kept_by_filter {A : Type} (P : A -> Prop) (q : A -> bool)
    (l : list A) :
  Forall P l -> Forall P (filter q l).
Proof.
  intros H. apply Forall_forall. intros a Ha.
  apply filter_In in Ha. destruct Ha as [Ha _].
  revert a Ha. now apply Forall_forall.
Qed.

Lemma handle_well_kept (c : component) (e : event) :
  well_kept c -> well_kept (handle c e).
Proof.
  intros [Hst Hall]. destruct e as [name v | now | i [|] | [|]];
    cbn [handle].
  - split; [exact Hst | exact Hall].
  - unfold handleSubmit. cbv zeta.
    destruct (ToBoolean (fd_subject (form c))) eqn:Hs; cbn [negb orb];
      [| split; assumption].
    destruct (fd_exam (form c) === blank)%js eqn:He; [split; assumption |].
    split; [reflexivity |]. cbn [grades setFormData setGrades].
    apply Forall_app. split; [assumption |].
    constructor; [| constructor].
    repeat split; try assumption. now exists now.
  - split; [reflexivity |]. cbn [grades deleteGrade setGrades].
    now apply Forall_kept_by_filter.
  - split; assumption.
  - split; [reflexivity | constructor].
  - split; assumption.
Qed.

Lemma run_well_kept (es : list event) (c : component) :
  well_kept c -> well_kept (run es c).
Proof.
  revert c. induction es as [| e es IH]; intros c H; [exact H |].
  cbn [run fold_left]. apply IH. now apply handle_well_kept.
Qed.

Lemma mounted_well_kept : well_kept mounted.
Proof. split; [reflexivity | constructor]. Qed.

(** X6: in the component the saved item always mirrors the collection.
    From the component as it mounts, after any sequence of typing,
    submissions, deletions and resets, accepted or declined,
    [espritGradeData] holds the current [grades], the empty collection
    included. *)
Theorem component_storage_mirrors_grades (es : list event) :
  espritGradeData (run es mounted) = Some (grades (run es mounted)).
Proof. exact (proj1 (run_well_kept es mounted mounted_well_kept)). Qed.

Lemma handle_kept_from (l : list grade) (c : component) (e : event) :
  kept_from l c -> kept_from l (handle c e).
Proof.
  unfold kept_from. intros Hall.
  destruct e as [name v | now | i [|] | [|]]; cbn [handle].
  - exact Hall.
  - unfold handleSubmit. cbv zeta.
    destruct (ToBoolean (fd_subject (form c))) eqn:Hs; cbn [negb orb];
      [| exact Hall].
    destruct (fd_exam (form c) === blank)%js eqn:He; [exact Hall |].
    cbn [grades setFormData setGrades].
    apply Forall_app. split; [exact Hall |].
    constructor; [| constructor].
    right. repeat split; try assumption. now exists now.
  - cbn [grades deleteGrade setGrades]. now apply Forall_kept_by_filter.
  - exact Hall.
  - constructor.
  - exact Hall.
Qed.

Lemma run_kept_from (l : list grade) (es : list event) (c : component) :
  kept_from l c -> kept_from l (run es c).
Proof.
  revert c. induction es as [| e es IH]; intros c H; [exact H |].
  cbn [run fold_left]. apply IH. now apply handle_kept_from.
Qed.

Lemma mount_kept_from (saved : option (list grade)) :
  kept_from (loaded saved) (mount saved).
Proof.
  unfold kept_from. cbn [mount grades].
  apply Forall_forall. intros g Hg. now left.
Qed.

Lemma mount_nothing_saved : mount None = mounted.
Proof. reflexivity. Qed.

(** What [useState] loads is not checked: an entry saved with an empty
    subject, an empty exam field and no id is in the collection of the
    component that mounts on it. *)
Lemma loaded_entries_unchecked :
  In subjectless_entry (grades (mount (Some [subjectless_entry])))
  /\ ToBoolean (subject subjectless_entry) = false
  /\ (exam subjectless_entry === blank)%js = true
  /\ id subjectless_entry = Undefined.
Proof. repeat split. left; reflexivity. Qed.

(** X7: no entry enters the collection of the component after it has
    mounted without passing the check of [handleSubmit].  The component
    mounts on the saved item, whose entries [useState] loads unchecked;
    after any sequence of events, every entry of the collection is either
    one of the entries that were loaded or has a subject that is not empty,
    an exam field that is not the empty string, and a number as its [id].
    When nothing was saved, every entry is of the second kind. *)
Theorem component_entries_validated
    (saved : option (list grade)) (es : list event) (g : grade) :
  In g (grades (run es (mount saved))) ->
  (In g (loaded saved)
   \/ (ToBoolean (subject g) = true
       /\ (exam g === blank)%js = false
       /\ exists now, id g = Number now))
  /\ (saved = None ->
      ToBoolean (subject g) = true
      /\ (exam g === blank)%js = false
      /\ exists now, id g = Number now).
Proof.
  intros Hin.
  pose proof (run_kept_from (loaded saved) es (mount saved)
                (mount_kept_from saved)) as H.
  pose proof (proj1 (Forall_forall _ _) H g Hin) as Hg.
  split; [exact Hg |].
  intros ->. destruct Hg as [[] | Hg]. exact Hg.
Qed.

Lemma component_entries_validated_witness :
  In {| subject := Str "Analyse"; coef := Number (Js.of_N 1);
        cc := blank; tp := blank; exam := Str "12";
        id := Number (Js.of_N 1700000000000) |}
     (loaded (Some zero_coef_grades))
  \/ (ToBoolean (Str "Analyse") = true
      /\ (Str "12" === blank)%js = false
      /\ exists now, Number (Js.of_N 1700000000000) = Number now).
Proof.
  refine (proj1 (component_entries_validated
            (Some zero_coef_grades)
            [Input f_subject "Analyse"; Input f_exam "12";
             Submit (Js.of_N 1700000000000)]
            {| subject := Str "Analyse"; coef := Number (Js.of_N 1);
               cc := blank; tp := blank; exam := Str "12";
               id := Number (Js.of_N 1700000000000) |} _)).
  vm_compute. right; left; reflexivity.
Defined.

Lemma filter_all {A : Type} (p : A -> bool) (l : list A) :
  Forall (fun a => p a = true) l -> filter p l = l.
Proof.
  intros H. induction H as [| a l Ha _ IH]; [reflexivity |].
  cbn [filter]. now rewrite Ha, IH.
Qed.

Lemma length_filter_le {A : Type} (p : A -> bool) (l : list A) :
  (List.length (filter p l) <= List.length l)%nat.
Proof.
  induction l as [| a l IH]; [apply Nat.le_refl |].
  cbn [filter]. destruct (p a); cbn [List.length]; lia.
Qed.

(** X8: submitting and then deleting the new entry gives the collection
    back.  When no entry already carries the number that [Date.now()]
    returns, deleting by that number after an accepted submission leaves
    exactly the entries there were before, and saves them. *)
Theorem submit_then_delete (now : Js.number) (c : component) :
  ToBoolean (fd_subject (form c)) = true ->
  (fd_exam (form c) === blank)%js = false ->
  Js.is_nan now = false ->
  Forall (fun g => (id_of g !== Number now)%js = true) (grades c) ->
  grades (deleteGrade (Number now) true (handleSubmit now c)) = grades c
  /\ espritGradeData (deleteGrade (Number now) true (handleSubmit now c))
     = Some (grades c).
Proof.
  intros Hs He Hnow Hfresh. rewrite (handleSubmit_accepted now c Hs He).
  cbn [deleteGrade setGrades grades espritGradeData].
  rewrite filter_app, (filter_all _ _ Hfresh). cbn [filter].
  assert (H : (id_of (new_grade (form c) now) !== Number now)%js = false).
  { unfold strict_ne, id_of. cbn [new_grade id strict_eq].
    now rewrite (num_eq_refl now Hnow). }
  rewrite H, app_nil_r. split; reflexivity.
Qed.

Lemma submit_then_delete_witness :
  let c :=
    {| grades :=
         [{| subject := Str "Analyse"; coef := Str "2"; cc := blank;
             tp := blank; exam := Str "16";
             id := Number (Js.of_N 1699999999999) |}];
       form :=
         {| fd_subject := Str "Physique"; fd_coef := Number (Js.of_N 1);
            fd_cc := blank; fd_tp := Str "6"; fd_exam := Str "4" |};
       espritGradeData := None |} in
  grades
    (deleteGrade (Number (Js.of_N 1700000000000)) true
       (handleSubmit (Js.of_N 1700000000000) c)) = grades c
  /\ espritGradeData
       (deleteGrade (Number (Js.of_N 1700000000000)) true
          (handleSubmit (Js.of_N 1700000000000) c)) = Some (grades c).
Proof.
  apply (submit_then_delete (Js.of_N 1700000000000)
           {| grades :=
                [{| subject := Str "Analyse"; coef := Str "2"; cc := blank;
                    tp := blank; exam := Str "16";
                    id := Number (Js.of_N 1699999999999) |}];
              form :=
                {| fd_subject := Str "Physique";
                   fd_coef := Number (Js.of_N 1);
                   fd_cc := blank; fd_tp := Str "6"; fd_exam := Str "4" |};
              espritGradeData := None |});
    try reflexivity.
  constructor; [vm_compute; reflexivity | constructor].
Defined.

(** X9: a deletion in the component removes every entry whose [id] is
    strictly equal to the given one, keeps every other entry, and never
    raises the number of entries, [validatedCount] or [dangerCount]; a
    declined deletion changes nothing. *)
Theorem delete_removes_by_id (i : value) (c : component) :
  (forall g : grade,
      In g (grades (deleteGrade i true c))
      <-> In g (grades c) /\ (id_of g === i)%js = false)
  /\ (List.length (grades (deleteGrade i true c))
      <= List.length (grades c))%nat
  /\ (validatedCount (grades (deleteGrade i true c))
      <= validatedCount (grades c))%nat
  /\ (dangerCount (grades (deleteGrade i true c))
      <= dangerCount (grades c))%nat
  /\ deleteGrade i false c = c.
Proof.
  cbn [deleteGrade setGrades grades]. split; [| split; [| split; [| split]]].
  - intros g. rewrite filter_In. unfold strict_ne. cbv beta.
    destruct (id_of g === i)%js; cbn [negb]; intuition congruence.
  - apply length_filter_le.
  - rewrite !validatedCount_count. apply count_filter_le.
  - rewrite !dangerCount_count. apply count_filter_le.
  - reflexivity.
Qed.

(** Typing in a control changes the field of that name and nothing
    else: the other fields, the collection and the saved item stay as they
    were, and the value is kept as the string that was typed. *)
Lemma input_changes_one_field (name : field) (v : string) (c : component) :
  get_field name (form (handleInputChange name v c)) = Str v
  /\ (forall other : field,
         other <> name ->
         get_field other (form (handleInputChange name v c))
         = get_field other (form c))
  /\ grades (handleInputChange name v c) = grades c
  /\ espritGradeData (handleInputChange name v c) = espritGradeData c.
Proof.
  split; [destruct name; reflexivity |].
  split; [| split; reflexivity].
  intros other Hne.
  destruct name, other; try reflexivity; now elim Hne.
Qed.

Lemma ToBoolean_Str (s : string) : s <> EmptyString -> ToBoolean (Str s) = true.
Proof. destruct s; [intros H; now elim H | reflexivity]. Qed.

Lemma Str_not_blank (s : string) :
  s <> EmptyString -> (Str s === blank)%js = false.
Proof. destruct s; [intros H; now elim H | reflexivity]. Qed.

(** X10: what is typed is what is stored.  Filling the five controls and
    submitting, with a subject and an exam that are not empty, appends
    exactly one entry that holds the five typed strings (the coefficient
    too is a string, not the number of the initial form) and the number of
    [Date.now()], whatever the form held before; the form is reset and the
    collection saved. *)
Theorem typed_entry_is_stored
    (s k a b e : string) (now : Js.number) (c : component) :
  s <> EmptyString ->
  e <> EmptyString ->
  run
    [Input f_subject s; Input f_coef k; Input f_cc a; Input f_tp b;
     Input f_exam e; Submit now] c
  = setFormData initial_formData
      (setGrades
         (grades c
          ++ [{| subject := Str s; coef := Str k; cc := Str a; tp := Str b;
                 exam := Str e; id := Number now |}]) c).
Proof.
  intros Hs He. cbn [run fold_left handle].
  rewrite handleSubmit_accepted.
  - reflexivity.
  - cbn. now apply ToBoolean_Str.
  - cbn [handleInputChange setFormData form with_field fd_exam].
    now apply Str_not_blank.
Qed.

Lemma typed_entry_is_stored_witness :
  run
    [Input f_subject "Analyse"; Input f_coef "2"; Input f_cc "12";
     Input f_tp EmptyString; Input f_exam "9.5";
     Submit (Js.of_N 1700000000000)] mounted
  = setFormData initial_formData
      (setGrades
         (grades mounted
          ++ [{| subject := Str "Analyse"; coef := Str "2"; cc := Str "12";
                 tp := Str EmptyString; exam := Str "9.5";
                 id := Number (Js.of_N 1700000000000) |}]) mounted).
Proof.
  apply (typed_entry_is_stored "Analyse" "2" "12" EmptyString "9.5"
           (Js.of_N 1700000000000) mounted); discriminate.
Defined.

End ComponentHandlers.

(** ** The page's handlers *)

Section PageHandlers.

Import Page.

Lemma forEach_rows_from (gs : list grade) (i : nat) (tbody : list row) :
  forEach_rows gs i tbody = (tbody ++ rows_from gs i)%list.
Proof.
  revert i tbody. induction gs as [| g gs IH]; intros i tbody.
  - cbn. now rewrite app_nil_r.
  - cbn [forEach_rows rows_from]. rewrite IH, <- app_assoc. reflexivity.
Qed.

Lemma length_rows_from (gs : list grade) (i : nat) :
  List.length (rows_from gs i) = List.length gs.
Proof.
  revert i. induction gs as [| g gs IH]; intros i; [reflexivity |].
  cbn [rows_from List.length]. now rewrite IH.
Qed.

Lemma nth_error_rows_from (gs : list grade) (i k : nat) :
  nth_error (rows_from gs i) k
  = option_map (fun g => render_row g (i + k)) (nth_error gs k).
Proof.
  revert i k. induction gs as [| g gs IH]; intros i [| k];
    cbn [rows_from nth_error option_map]; try reflexivity.
  - now rewrite Nat.add_0_r.
  - rewrite IH. now rewrite Nat.add_succ_r.
Qed.

Lemma rows_from_text (gs : list grade) (i : nat) :
  Forall (fun r => row_innerHTML r = row_text r) (rows_from gs i).
Proof.
  revert i. induction gs as [| g gs IH]; intros i; cbn [rows_from];
    constructor; [reflexivity | apply IH].
Qed.

Lemma renderTable_grades (a : app) :
  grades (view (renderTable a)) = grades (view a).
Proof.
  unfold renderTable.
  destruct (grades (view a)) eqn:E; cbn [saveData view];
    now rewrite updateStats_grades.
Qed.

Lemma renderTable_rows (a : app) :
  gradesTableBody (renderTable a) = rows_from (grades (view a)) 0.
Proof.
  unfold renderTable. destruct (grades (view a)) eqn:E; [reflexivity |].
  cbn [saveData gradesTableBody]. now rewrite forEach_rows_from.
Qed.

Lemma renderTable_gradeData (a : app) :
  gradeData (renderTable a)
  = match grades (view a) with
    | [] => gradeData a
    | _ => Some (grades (view a))
    end.
Proof.
  unfold renderTable. destruct (grades (view a)) eqn:E; [reflexivity |].
  cbn [saveData gradeData view]. now rewrite updateStats_grades, E.
Qed.

Lemma renderTable_display (a : app) :
  emptyState_display (renderTable a)
  = match grades (view a) with [] => "block" | _ => "none" end.
Proof. unfold renderTable. destruct (grades (view a)); reflexivity. Qed.

Lemma renderTable_view (a : app) :
  view (renderTable a) = updateStats (view a).
Proof. unfold renderTable. destruct (grades (view a)); reflexivity. Qed.

Lemma app_ext (a b : app) :
  view a = view b -> gradesTableBody a = gradesTableBody b ->
  emptyState_display a = emptyState_display b -> gradeData a = gradeData b ->
  a = b.
Proof. destruct a, b; cbn; intros -> -> -> ->; reflexivity. Qed.

(** Rendering twice is rendering once. *)
Lemma renderTable_idempotent (a : app) :
  renderTable (renderTable a) = renderTable a.
Proof.
  apply app_ext.
  - rewrite !renderTable_view. apply updateStats_idempotent.
  - now rewrite !renderTable_rows, renderTable_grades.
  - now rewrite !renderTable_display, renderTable_grades.
  - rewrite !renderTable_gradeData, renderTable_grades.
    destruct (grades (view a)); reflexivity.
Qed.

(** Every handler leaves the page as [renderTable] left it. *)
Lemma handle_rendered (a : app) (e : event) :
  renderTable a = a -> renderTable (handle a e) = handle a e.
Proof.
  intros Ha. destruct e as [s k c t x | i [|] | [|]];
    cbn [handle addGrade deleteGrade resetClick];
    (apply renderTable_idempotent || exact Ha).
Qed.

Lemma run_rendered (es : list event) (a : app) :
  renderTable a = a -> renderTable (run es a) = run es a.
Proof.
  revert a. induction es as [| e es IH]; intros a Ha; [exact Ha |].
  cbn [run fold_left]. apply IH. now apply handle_rendered.
Qed.

Lemma rendered_facts (a : app) :
  renderTable a = a ->
  view a = updateStats (view a)
  /\ gradesTableBody a = rows_from (grades (view a)) 0
  /\ emptyState_display a
     = match grades (view a) with [] => "block" | _ => "none" end
  /\ (grades (view a) <> [] -> gradeData a = Some (grades (view a))).
Proof.
  intros Ha. repeat split.
  - rewrite <- Ha at 1. apply renderTable_view.
  - rewrite <- Ha at 1. apply renderTable_rows.
  - rewrite <- Ha at 1. apply renderTable_display.
  - intros Hne. rewrite <- Ha at 1. rewrite renderTable_gradeData.
    destruct (grades (view a)); [now elim Hne | reflexivity].
Qed.

(** X11: what the page has written is always in step with the collection
    it holds.  After the first [renderTable] of the load and any sequence
    of additions, deletions and resets, accepted or declined: the
    statistics are those that [updateStats] computes from [grades]; the
    table body has received one [tr] per entry, and the [k]-th is the one
    that the loop builds from entry [k] and index [k], its [innerHTML] the
    template filled with the fields of entry [k] as they are and with
    [deleteGrade(k)] in the button's [onclick]; the values kept with a row
    are those in its text; the empty-state block is
    displayed exactly when there is no entry; and a collection that is not
    empty is the one saved.  The theorem speaks of the text written, not
    of what a browser builds from a field that holds markup. *)
Theorem page_renders_collection (es : list event) (a0 : app) :
  let a := run es (renderTable a0) in
  view a = updateStats (view a)
  /\ List.length (gradesTableBody a) = List.length (grades (view a))
  /\ (forall (k : nat) (g : grade),
         nth_error (grades (view a)) k = Some g ->
         nth_error (gradesTableBody a) k = Some (render_row g k))
  /\ Forall (fun r => row_innerHTML r = row_text r) (gradesTableBody a)
  /\ (emptyState_display a = "block" <-> grades (view a) = [])
  /\ (grades (view a) <> [] -> gradeData a = Some (grades (view a))).
Proof.
  intros a.
  assert (Ha : renderTable a = a)
    by (apply run_rendered, renderTable_idempotent).
  destruct (rendered_facts a Ha) as (Hv & Hr & Hd & Hs).
  split; [exact Hv |]. split; [| split; [| split; [| split]]].
  - rewrite Hr. apply length_rows_from.
  - intros k g Hk. rewrite Hr, nth_error_rows_from, Hk. reflexivity.
  - rewrite Hr. apply rows_from_text.
  - rewrite Hd. destruct (grades (view a)); split; intros H;
      (reflexivity || discriminate).
  - exact Hs.
Qed.

Lemma page_renders_collection_witness :
  nth_error
    (gradesTableBody
       (run [Add "Algebre" "2" "12" "14" "10";
           Add "Analyse" "1" EmptyString "6" "4"]
          (renderTable
             {| view := fresh_page []; gradesTableBody := [];
                emptyState_display := "none"; gradeData := None |}))) 1
  = Some (render_row (entry (Str EmptyString) (Str "6") (Str "4") (Str "1")) 1).
Proof.
  apply (proj1 (proj2 (proj2
           (page_renders_collection
              [Add "Algebre" "2" "12" "14" "10";
           Add "Analyse" "1" EmptyString "6" "4"]
              {| view := fresh_page []; gradesTableBody := [];
                 emptyState_display := "none"; gradeData := None |})))).
  reflexivity.
Defined.

Lemma splice_one_at {A : Type} (l : list A) (k : nat) :
  (k < List.length l)%nat ->
  splice_one l (Z.of_nat k) = (firstn k l ++ skipn (S k) l)%list.
Proof.
  intros Hk. unfold splice_one. cbv zeta.
  destruct (Z.ltb_spec (Z.of_nat k) 0) as [H | _]; [lia |].
  replace (Z.min (Z.of_nat k) (Z.of_nat (List.length l))) with (Z.of_nat k)
    by lia.
  replace (Z.min (Z.max 1 0) (Z.of_nat (List.length l) - Z.of_nat k)) with 1
    by lia.
  replace (Z.to_nat (Z.of_nat k + 1)) with (S k) by lia.
  now rewrite Nat2Z.id.
Qed.

Lemma splice_one_past {A : Type} (l : list A) (i : Z) :
  Z.of_nat (List.length l) <= i -> splice_one l i = l.
Proof.
  intros Hi. unfold splice_one. cbv zeta.
  destruct (Z.ltb_spec i 0) as [H | _]; [lia |].
  replace (Z.min i (Z.of_nat (List.length l)))
    with (Z.of_nat (List.length l)) by lia.
  replace (Z.of_nat (List.length l) - Z.of_nat (List.length l)) with 0 by lia.
  replace (Z.min (Z.max 1 0) 0) with 0 by lia.
  rewrite Z.add_0_r, Nat2Z.id, firstn_all, skipn_all. apply app_nil_r.
Qed.

Lemma splice_one_from_end {A : Type} (l : list A) (k : nat) :
  (0 < k <= List.length l)%nat ->
  splice_one l (- Z.of_nat k)
  = (firstn (List.length l - k) l ++ skipn (S (List.length l - k)) l)%list.
Proof.
  intros Hk. unfold splice_one. cbv zeta.
  destruct (Z.ltb_spec (- Z.of_nat k) 0) as [_ | H]; [| lia].
  replace (Z.max (Z.of_nat (List.length l) + - Z.of_nat k) 0)
    with (Z.of_nat (List.length l - k)) by lia.
  replace (Z.min (Z.max 1 0)
             (Z.of_nat (List.length l) - Z.of_nat (List.length l - k)))
    with 1 by lia.
  replace (Z.to_nat (Z.of_nat (List.length l - k) + 1))
    with (S (List.length l - k)) by lia.
  now rewrite Nat2Z.id.
Qed.

Lemma length_remove_at {A : Type} (l : list A) (k : nat) :
  (k < List.length l)%nat ->
  S (List.length (firstn k l ++ skipn (S k) l)) = List.length l.
Proof.
  intros Hk. rewrite length_app, length_firstn, length_skipn. lia.
Qed.

Lemma with_grades_grades (gs : list grade) (a : app) :
  grades (view (with_grades gs a)) = gs.
Proof. reflexivity. Qed.

Lemma deleteGrade_grades (i : Z) (a : app) :
  grades (view (deleteGrade i true a)) = splice_one (grades (view a)) i.
Proof.
  cbn [deleteGrade]. now rewrite renderTable_grades, with_grades_grades.
Qed.

(** X12: [deleteGrade] follows [splice].  A confirmed deletion at an index
    of the collection removes the entry at that index and keeps the others
    in order; an index at or past the end removes nothing; a negative index
    counts from the end, so [-1] removes the last entry; a declined
    deletion leaves the whole page as it was. *)
Theorem delete_by_index (a : app) (k : nat) :
  ((k < List.length (grades (view a)))%nat ->
   grades (view (deleteGrade (Z.of_nat k) true a))
   = (firstn k (grades (view a)) ++ skipn (S k) (grades (view a)))%list
   /\ S (List.length (grades (view (deleteGrade (Z.of_nat k) true a))))
      = List.length (grades (view a)))
  /\ ((List.length (grades (view a)) <= k)%nat ->
      grades (view (deleteGrade (Z.of_nat k) true a)) = grades (view a))
  /\ ((0 < k <= List.length (grades (view a)))%nat ->
      grades (view (deleteGrade (- Z.of_nat k) true a))
      = (firstn (List.length (grades (view a)) - k) (grades (view a))
         ++ skipn (S (List.length (grades (view a)) - k))
              (grades (view a)))%list)
  /\ (forall i : Z, deleteGrade i false a = a).
Proof.
  split; [| split; [| split]].
  - intros Hk. rewrite deleteGrade_grades, (splice_one_at _ k Hk).
    split; [reflexivity | now apply length_remove_at].
  - intros Hk. rewrite deleteGrade_grades. apply splice_one_past. lia.
  - intros Hk. rewrite deleteGrade_grades. now apply splice_one_from_end.
  - reflexivity.
Qed.

Lemma delete_by_index_witness :
  grades
    (view
       (deleteGrade (Z.of_nat 0) true
          {| view := fresh_page negative_coef_grades; gradesTableBody := [];
             emptyState_display := "none"; gradeData := None |}))
  = (firstn 0 negative_coef_grades ++ skipn 1 negative_coef_grades)%list
  /\ S (List.length
          (grades
             (view
                (deleteGrade (Z.of_nat 0) true
                   {| view := fresh_page negative_coef_grades;
                      gradesTableBody := [];
                      emptyState_display := "none"; gradeData := None |}))))
     = List.length negative_coef_grades.
Proof.
  apply (proj1 (delete_by_index
                  {| view := fresh_page negative_coef_grades;
                     gradesTableBody := [];
                     emptyState_display := "none"; gradeData := None |} 0)).
  cbn. lia.
Defined.

(** X13: the button of a row deletes the entry that the row shows.  On the
    page as it stands after the load and any sequence of events, a
    confirmed click on the button of row [k] removes entry [k] of the
    collection, no other, and the collection is one entry shorter. *)
Theorem row_button_deletes_its_entry
    (es : list event) (a0 : app) (k : nat) (r : row) :
  let a := run es (renderTable a0) in
  nth_error (gradesTableBody a) k = Some r ->
  grades (view (deleteGrade (Z.of_nat (row_delete r)) true a))
  = (firstn k (grades (view a)) ++ skipn (S k) (grades (view a)))%list
  /\ S (List.length
          (grades (view (deleteGrade (Z.of_nat (row_delete r)) true a))))
     = List.length (grades (view a)).
Proof.
  intros a Hr.
  assert (Ha : renderTable a = a)
    by (apply run_rendered, renderTable_idempotent).
  destruct (rendered_facts a Ha) as (_ & Hrows & _).
  rewrite Hrows, nth_error_rows_from in Hr.
  destruct (nth_error (grades (view a)) k) as [g |] eqn:Hg; [| discriminate].
  injection Hr as <-. cbn [render_row row_delete Nat.add].
  assert (Hk : (k < List.length (grades (view a)))%nat).
  { apply nth_error_Some. now rewrite Hg. }
  rewrite deleteGrade_grades, (splice_one_at _ k Hk).
  split; [reflexivity | now apply length_remove_at].
Qed.

Lemma row_button_deletes_its_entry_witness :
  let a :=
    run [Add "Algebre" "2" "12" "14" "10"]
      (renderTable
         {| view := fresh_page []; gradesTableBody := [];
            emptyState_display := "none"; gradeData := None |}) in
  let r :=
    render_row
      {| subject := Str "Algebre"; coef := Str "2"; cc := Str "12";
         tp := Str "14"; exam := Str "10"; id := Undefined |} 0 in
  grades (view (deleteGrade (Z.of_nat (row_delete r)) true a))
  = (firstn 0 (grades (view a)) ++ skipn 1 (grades (view a)))%list
  /\ S (List.length
          (grades (view (deleteGrade (Z.of_nat (row_delete r)) true a))))
     = List.length (grades (view a)).
Proof.
  apply (row_button_deletes_its_entry
           [Add "Algebre" "2" "12" "14" "10"]
           {| view := fresh_page []; gradesTableBody := [];
              emptyState_display := "none"; gradeData := None |} 0).
  reflexivity.
Defined.

(** X14: the page never saves an empty collection.  Whatever the event,
    if it empties a collection that was not empty and was saved, the saved
    item still holds the collection as it was before: neither "tout
    effacer" nor the deletion of the last entry reaches [localStorage]. *)
Theorem emptying_is_not_saved (a : app) (e : event) :
  grades (view a) <> [] ->
  gradeData a = Some (grades (view a)) ->
  grades (view (handle a e)) = [] ->
  gradeData (handle a e) = Some (grades (view a)).
Proof.
  intros Hne Hsaved.
  destruct e as [s k c t x | i [|] | [|]];
    unfold handle, addGrade, deleteGrade, resetClick; cbv zeta;
    rewrite ?renderTable_grades, ?renderTable_gradeData, ?with_grades_grades;
    intros Hempty; try exact Hsaved; try (now elim Hne).
  - now apply app_eq_nil in Hempty as [_ [=]].
  - rewrite Hempty. exact Hsaved.
Qed.

Lemma emptying_is_not_saved_witness :
  gradeData
    (handle
       {| view := fresh_page zero_coef_grades; gradesTableBody := [];
          emptyState_display := "none";
          gradeData := Some zero_coef_grades |} (Reset true))
  = Some zero_coef_grades.
Proof.
  apply (emptying_is_not_saved
           {| view := fresh_page zero_coef_grades; gradesTableBody := [];
              emptyState_display := "none";
              gradeData := Some zero_coef_grades |} (Reset true));
    (discriminate || reflexivity).
Defined.

Lemma updateStats_by_grades (p p' : page) :
  grades p = grades p' -> grades p <> [] -> updateStats p = updateStats p'.
Proof.
  intros E Hne. unfold updateStats. rewrite <- E.
  destruct (grades p); [now elim Hne | reflexivity].
Qed.

Lemma firstn_skipn_last {A : Type} (l : list A) (x : A) :
  (firstn (List.length l) (l ++ [x])
   ++ skipn (S (List.length l)) (l ++ [x]))%list = l.
Proof.
  rewrite firstn_app, Nat.sub_diag, firstn_all, firstn_O, app_nil_r.
  rewrite skipn_all2; [apply app_nil_r |].
  rewrite length_app. cbn. lia.
Qed.

(** X15: adding an entry and deleting it again.  After an addition, a
    confirmed deletion at the last index restores the collection.  When the
    collection was not empty the whole page is as [renderTable] shows it
    for the collection before the addition; when it was empty the page is
    empty again, but the saved item holds the entry that was deleted. *)
Theorem add_then_delete_last (s k c t x : string) (a : app) :
  let g :=
    {| subject := Str s; coef := Str k; cc := Str c; tp := Str t;
       exam := Str x; id := Undefined |} in
  let a' :=
    deleteGrade (Z.of_nat (List.length (grades (view a)))) true
      (addGrade s k c t x a) in
  grades (view a') = grades (view a)
  /\ (grades (view a) <> [] -> a' = renderTable a)
  /\ (grades (view a) = [] -> gradeData a' = Some [g]).
Proof.
  intros g a'.
  assert (Hadd : grades (view (addGrade s k c t x a))
                 = (grades (view a) ++ [g])%list).
  { unfold addGrade. cbv zeta. now rewrite renderTable_grades. }
  assert (Hg : grades (view a') = grades (view a)).
  { unfold a'. rewrite deleteGrade_grades, Hadd.
    rewrite splice_one_at by (rewrite length_app; cbn; lia).
    apply firstn_skipn_last. }
  split; [exact Hg |]. split.
  - intros Hne. apply app_ext.
    + unfold a' at 1. cbn [deleteGrade]. rewrite !renderTable_view.
      apply updateStats_by_grades.
      * cbn [with_grades view grades]. rewrite Hadd.
        rewrite splice_one_at by (rewrite length_app; cbn; lia).
        apply firstn_skipn_last.
      * cbn [with_grades view grades]. rewrite Hadd.
        rewrite splice_one_at by (rewrite length_app; cbn; lia).
        now rewrite firstn_skipn_last.
    + unfold a' at 1. cbn [deleteGrade]. rewrite !renderTable_rows.
      rewrite with_grades_grades, Hadd.
      rewrite splice_one_at by (rewrite length_app; cbn; lia).
      now rewrite firstn_skipn_last.
    + unfold a' at 1. cbn [deleteGrade]. rewrite !renderTable_display.
      rewrite with_grades_grades, Hadd.
      rewrite splice_one_at by (rewrite length_app; cbn; lia).
      now rewrite firstn_skipn_last.
    + unfold a' at 1. cbn [deleteGrade]. rewrite !renderTable_gradeData.
      rewrite with_grades_grades, Hadd.
      rewrite splice_one_at by (rewrite length_app; cbn; lia).
      rewrite firstn_skipn_last.
      destruct (grades (view a)); [now elim Hne | reflexivity].
  - intros Hempty. unfold a'. cbn [deleteGrade].
    rewrite renderTable_gradeData, with_grades_grades, Hadd.
    rewrite splice_one_at by (rewrite length_app; cbn; lia).
    rewrite firstn_skipn_last, Hempty.
    cbn [with_grades gradeData]. unfold addGrade. cbv zeta.
    rewrite renderTable_gradeData, with_grades_grades, Hempty. reflexivity.
Qed.

Lemma add_then_delete_last_witness :
  let a :=
    {| view := fresh_page zero_coef_grades; gradesTableBody := [];
       emptyState_display := "none"; gradeData := None |} in
  deleteGrade (Z.of_nat (List.length (grades (view a)))) true
    (addGrade "Physique" "1" EmptyString "6" "4" a)
  = renderTable a.
Proof.
  apply (proj1 (proj2
           (add_then_delete_last "Physique" "1" EmptyString "6" "4"
              {| view := fresh_page zero_coef_grades; gradesTableBody := [];
                 emptyState_display := "none"; gradeData := None |}))).
  discriminate.
Defined.

(** ** The CSV export *)

Lemma count_char_append (c : ascii) (s t : string) :
  count_char c (s ++ t) = (count_char c s + count_char c t)%nat.
Proof.
  induction s as [| x s IH]; [reflexivity |].
  cbn [append count_char]. rewrite IH. lia.
Qed.

Lemma count_replace_first (c d : ascii) (s : string) :
  (1 <= count_char c s)%nat -> (1 <= count_char d (replace_first c d s))%nat.
Proof.
  induction s as [| x s IH]; cbn [count_char replace_first]; [lia |].
  destruct (Ascii.eqb x c) eqn:E.
  - intros _. cbn [count_char]. rewrite Ascii.eqb_refl. lia.
  - intros H. cbn [count_char]. specialize (IH ltac:(lia)). lia.
Qed.

Lemma fixed_layout_point (n : N) (fd : nat) :
  (1 <= count_char "." (Js.fixed_layout n (S fd)))%nat.
Proof.
  unfold Js.fixed_layout. cbv zeta.
  rewrite !count_char_append. cbn [count_char Ascii.eqb Bool.eqb]. lia.
Qed.

Lemma toFixed_point (x : Js.number) :
  fixed_notation x = true -> (1 <= count_char "." (Js.toFixed x 2))%nat.
Proof.
  destruct x as [s | s | | s m e]; cbn [fixed_notation]; try discriminate.
  - intros _. cbn. lia.
  - intros H. unfold Js.toFixed.
    destruct (snd (Js.fraction m e) * 10 ^ 21
              <=? fst (Js.fraction m e))%positive; [discriminate |].
    rewrite count_char_append. pose proof (fixed_layout_point
      (Js.round_half_up (Js.scale10 (Js.fraction m e) (- Z.of_nat 2))) 1).
    lia.
Qed.

Lemma calculerMoyenne_sum (cc tp exam : value) :
  calculerMoyenne (mk_notes cc tp exam) = Js.toFixed (page_sum cc tp exam) 2.
Proof. apply calculerMoyenne_cases. Qed.

(** X16: the export writes the decimal point of the average as a comma
    between fields that commas separate.  The header has five commas, for
    six columns; the line of every entry whose average is a finite number
    below [10^21] has at least six.  An empty collection gives no text. *)
Theorem csv_average_splits (g : grade) :
  fixed_notation (page_sum (cc g) (tp g) (exam g)) = true ->
  (6 <= count_char "," (csv_row g))%nat
  /\ count_char "," csv_header = 5%nat
  /\ csvContent [] = None.
Proof.
  intros H. split; [| split; reflexivity].
  unfold csv_row. cbv zeta. cbn [join].
  rewrite !count_char_append.
  change (count_char "," ",") with 1%nat.
  pose proof (count_replace_first "." "," _
                (toFixed_point _ H)) as Hc.
  rewrite <- calculerMoyenne_sum in Hc. unfold mk_notes in Hc. lia.
Qed.

Lemma csv_average_splits_witness :
  (6 <= count_char ","
          (csv_row (entry (Str "12") (Str "14") (Str "10") (Str "2"))))%nat
  /\ count_char "," csv_header = 5%nat
  /\ csvContent [] = None.
Proof.
  apply (csv_average_splits (entry (Str "12") (Str "14") (Str "10") (Str "2"))).
  vm_compute; reflexivity.
Defined.

End PageHandlers.

(** ** Reading back a displayed average *)

Section ReadBack.

(** *** Rounding never makes a NaN *)

Lemma shr_1_nonneg (mrs : shr_record) :
  0 <= shr_m mrs -> 0 <= shr_m (shr_1 mrs).
Proof.
  destruct mrs as [m r s]. cbn [shr_m]. intros H.
  destruct m as [| [p | p |] | p]; cbn; lia.
Qed.

Lemma iter_pos_invariant {A : Type} (P : A -> Prop) (f : A -> A) :
  (forall x, P x -> P (f x)) ->
  forall (p : positive) (x : A), P x -> P (iter_pos f p x).
Proof.
  intros Hf. induction p as [p IH | p IH |]; intros x Hx; cbn [iter_pos].
  - apply IH, IH, Hf, Hx.
  - apply IH, IH, Hx.
  - apply Hf, Hx.
Qed.

Lemma shr_fexp_nonneg (m e : Z) (l : location) :
  0 <= m -> 0 <= shr_m (fst (shr_fexp Js.prec Js.emax m e l)).
Proof.
  intros Hm. unfold shr_fexp, shr.
  assert (H0 : 0 <= shr_m (shr_record_of_loc m l))
    by (destruct l as [| [ | | ]]; exact Hm).
  destruct (fexp Js.prec Js.emax (Zdigits2 m + e) - e) as [| p | p];
    cbn [fst]; try exact H0.
  now apply (iter_pos_invariant (fun r => 0 <= shr_m r) shr_1 shr_1_nonneg).
Qed.

Lemma round_nearest_even_nonneg (m : Z) (l : location) :
  0 <= m -> 0 <= round_nearest_even m l.
Proof.
  intros Hm. destruct l as [| [ | | ]]; cbn [round_nearest_even]; try lia.
  destruct (Z.even m); lia.
Qed.

Lemma binary_round_aux_number (sx : bool) (mx ex : Z) (lx : location) :
  0 <= mx -> Js.is_nan (binary_round_aux Js.prec Js.emax sx mx ex lx) = false.
Proof.
  intros Hm. unfold binary_round_aux.
  pose proof (shr_fexp_nonneg mx ex lx Hm) as H1.
  destruct (shr_fexp Js.prec Js.emax mx ex lx) as [mrs' e'].
  cbn [fst] in H1.
  pose proof
    (shr_fexp_nonneg
       (round_nearest_even (shr_m mrs') (loc_of_shr_record mrs')) e' loc_Exact
       (round_nearest_even_nonneg _ _ H1)) as H2.
  destruct (shr_fexp Js.prec Js.emax
              (round_nearest_even (shr_m mrs') (loc_of_shr_record mrs'))
              e' loc_Exact) as [mrs'' e''].
  cbn [fst] in H2.
  destruct (shr_m mrs'') as [| p | p]; [reflexivity | | lia].
  destruct (e'' <=? Js.emax - Js.prec); reflexivity.
Qed.

Lemma binary_round_number (sx : bool) (mx : positive) (ex : Z) :
  Js.is_nan (binary_round Js.prec Js.emax sx mx ex) = false.
Proof.
  unfold binary_round.
  destruct (shl_align mx ex
              (fexp Js.prec Js.emax (Z.pos (digits2_pos mx) + ex)))
    as [mz ez].
  apply binary_round_aux_number. lia.
Qed.

Lemma div_core_nonneg (m1 m2 : positive) (e1 e2 : Z) :
  0 <= fst (fst (SFdiv_core_binary Js.prec Js.emax
                   (Z.pos m1) e1 (Z.pos m2) e2)).
Proof.
  unfold SFdiv_core_binary. cbv zeta.
  set (s := e1 - e2 - _).
  set (m' := match s with
             | 0 => Z.pos m1
             | Z.pos _ => Z.shiftl (Z.pos m1) s
             | Z.neg _ => 0
             end).
  assert (Hm : 0 <= m').
  { unfold m'. destruct s as [| p | p]; try lia.
    apply Z.shiftl_nonneg. lia. }
  destruct (Z.div_eucl m' (Z.pos m2)) as [q r] eqn:E. cbn [fst].
  assert (Hq : q = m' / Z.pos m2) by (unfold Z.div; now rewrite E).
  rewrite Hq. apply Z.div_pos; lia.
Qed.

(** A decimal is never read as NaN. *)
Lemma of_decimal_number (neg : bool) (m : N) (e10 : Z) :
  Js.is_nan (Js.of_decimal neg m e10) = false.
Proof.
  unfold Js.of_decimal. destruct m as [| p]; [reflexivity |].
  destruct e10 as [| k | k]; try apply binary_round_number.
  pose proof (div_core_nonneg p (10 ^ k) 0 0) as H.
  destruct (SFdiv_core_binary Js.prec Js.emax (Z.pos p) 0 (Z.pos (10 ^ k)) 0)
    as [[q e] l].
  cbn [fst] in H. now apply binary_round_aux_number.
Qed.

(** *** A text that starts with a digit is read as a number *)

Lemma digit_facts (c : ascii) :
  Js.is_digit c = true ->
  Js.is_white c = false
  /\ Ascii.eqb "I" c = false
  /\ forall s, Js.scan_sign (String c s) = (false, String c s).
Proof.
  destruct c as [[|] [|] [|] [|] [|] [|] [|] [|]]; vm_compute;
    intros H; try discriminate; repeat split.
Qed.

Lemma scan_digits_count (s : string) (acc : N) (cnt : Z) :
  cnt <= snd (fst (Js.scan_digits s acc cnt)).
Proof.
  revert acc cnt. induction s as [| c s IH]; intros acc cnt;
    cbn [Js.scan_digits]; [cbn; lia |].
  destruct (Js.is_digit c); [| cbn; lia].
  specialize (IH (10 * acc + Js.digit_value c)%N (cnt + 1)). lia.
Qed.

Lemma scan_unsigned_digits (t : string) :
  Js.strip_prefix "Infinity" t = None ->
  1 <= snd (fst (Js.scan_digits t 0%N 0)) ->
  exists m e rest, Js.scan_unsigned t = Some (Js.LitDecimal m e, rest).
Proof.
  intros Hinf Hcnt. unfold Js.scan_unsigned. rewrite Hinf.
  destruct (Js.scan_digits t 0%N 0) as [[i ni] s1]. cbn [fst snd] in Hcnt.
  assert (Hni : (ni =? 0) = false) by (apply Z.eqb_neq; lia).
  destruct s1 as [| c1 s2].
  - rewrite Hni. destruct (Js.scan_exponent EmptyString) as [e rest].
    now exists i, e, rest.
  - destruct c1 as [[|] [|] [|] [|] [|] [|] [|] [|]]; cbv beta iota;
      rewrite ?Hni;
      repeat match goal with
        | |- context [Js.scan_digits ?a ?b ?c] =>
            destruct (Js.scan_digits a b c) as [[? ?] ?]
        | |- context [Js.scan_exponent ?a] =>
            destruct (Js.scan_exponent a) as [? ?]
        end;
      cbn [andb]; eauto.
Qed.

Lemma scan_unsigned_digit_led (c : ascii) (s : string) :
  Js.is_digit c = true ->
  exists m e rest,
    Js.scan_unsigned (String c s) = Some (Js.LitDecimal m e, rest).
Proof.
  intros Hc. destruct (digit_facts c Hc) as (_ & HI & _).
  apply scan_unsigned_digits.
  - cbn [Js.strip_prefix]. now rewrite HI.
  - cbn [Js.scan_digits]. rewrite Hc.
    pose proof (scan_digits_count s (10 * 0 + Js.digit_value c)%N (0 + 1)).
    lia.
Qed.

Lemma parse_digit_led (t : string) :
  digit_led t ->
  Js.is_nan (Js.parseFloat_string t) = false
  /\ Js.is_nan (Js.parseFloat_string (String "-" t)) = false.
Proof.
  intros (c & s & -> & Hc).
  destruct (digit_facts c Hc) as (Hw & _ & Hsign).
  destruct (scan_unsigned_digit_led c s Hc) as (m & e & rest & Hscan).
  unfold Js.parseFloat_string. split.
  - cbn [Js.trim_start]. rewrite Hw. unfold Js.scan_decimal.
    rewrite Hsign, Hscan. cbn [Js.literal_value]. apply of_decimal_number.
  - cbn [Js.trim_start]. change (Js.is_white "-") with false. cbv iota.
    unfold Js.scan_decimal.
    change (Js.scan_sign (String "-" (String c s))) with (true, String c s).
    cbv beta iota. rewrite Hscan. cbn [Js.literal_value].
    apply of_decimal_number.
Qed.

(** *** What [toFixed] prints starts with a digit *)

Lemma string_of_N_digit_led (n : N) : digit_led (Js.string_of_N n).
Proof.
  unfold Js.string_of_N, NilZero.string_of_uint.
  destruct (N.to_uint n); cbn [NilEmpty.string_of_uint];
    do 2 eexists; split; reflexivity.
Qed.

Lemma fixed_layout_digit_led (n : N) : digit_led (Js.fixed_layout n 2).
Proof.
  unfold Js.fixed_layout.
  destruct (string_of_N_digit_led n) as (c & s & -> & Hc).
  destruct s as [| c1 [| c2 s]]; cbn.
  - exists "0"%char. eexists. split; reflexivity.
  - exists "0"%char. eexists. split; reflexivity.
  - exists c. eexists. split; [reflexivity | exact Hc].
Qed.

Lemma layout_digit_led (d : string) (n : Z) :
  digit_led d -> digit_led (Js.layout d n).
Proof.
  intros (c & s & -> & Hc). unfold Js.layout. cbv zeta.
  destruct ((Z.of_nat (String.length (String c s)) <=? n) && (n <=? 21)).
  { exists c. eexists. split; [reflexivity | exact Hc]. }
  destruct ((0 <? n) && (n <=? 21)) eqn:E.
  { apply andb_prop in E. destruct E as [E _]. apply Z.ltb_lt in E.
    destruct (Z.to_nat n) as [| j] eqn:Ej; [lia |].
    exists c. eexists. split; [reflexivity | exact Hc]. }
  destruct ((-6 <? n) && (n <=? 0)).
  { exists "0"%char. eexists. split; reflexivity. }
  destruct s; exists c; eexists; (split; [reflexivity | exact Hc]).
Qed.

Lemma Number_toString_digit_led (m : positive) (e : Z) :
  digit_led (Js.Number_toString (S754_finite false m e)).
Proof.
  unfold Js.Number_toString.
  destruct (Js.shortest_digits _ _ _ _ _) as [d n].
  cbn [append]. apply layout_digit_led, string_of_N_digit_led.
Qed.

Lemma toFixed_read_back (x : Js.number) :
  Js.is_nan (Js.parseFloat_string (Js.toFixed x 2)) = Js.is_nan x.
Proof.
  destruct x as [s | [|] | | s m e]; try reflexivity.
  unfold Js.toFixed.
  assert (H : digit_led
                (if (snd (Js.fraction m e) * 10 ^ 21
                     <=? fst (Js.fraction m e))%positive
                 then Js.Number_toString (S754_finite false m e)
                 else Js.fixed_layout
                        (Js.round_half_up
                           (Js.scale10 (Js.fraction m e) (- Z.of_nat 2))) 2)).
  { destruct (_ <=? _)%positive;
      [apply Number_toString_digit_led | apply fixed_layout_digit_led]. }
  destruct (parse_digit_led _ H) as [Hp Hn].
  destruct (snd (Js.fraction m e) * 10 ^ 21 <=? fst (Js.fraction m e))%positive,
    s; cbn [append Js.is_nan]; assumption.
Qed.

(** X17: the average that [updateStats] reads back from the displayed
    text is a number exactly when the number that [calculerMoyenne]
    printed is one: [parseFloat(x.toFixed(2))] is NaN if and only if [x]
    is NaN, for every number, the infinities and the numbers printed in
    exponent notation included. *)
Theorem displayed_average_reads_back (g : grade) :
  Js.is_nan (page_average g)
  = Js.is_nan (page_sum (cc g) (tp g) (exam g))
  /\ forall x : Js.number,
       Js.is_nan (parseFloat (Str (Js.toFixed x 2))) = Js.is_nan x.
Proof.
  split.
  - unfold page_average. rewrite calculerMoyenne_sum. apply toFixed_read_back.
  - intros x. apply toFixed_read_back.
Qed.

End ReadBack.

(** ** Marks that are not negative *)

Section NonNegative.

Lemma binary_round_aux_nonneg (mx ex : Z) (lx : location) :
  0 <= mx -> nonneg (binary_round_aux Js.prec Js.emax false mx ex lx) = true.
Proof.
  intros Hm. unfold binary_round_aux.
  pose proof (shr_fexp_nonneg mx ex lx Hm) as H1.
  destruct (shr_fexp Js.prec Js.emax mx ex lx) as [mrs' e'].
  cbn [fst] in H1.
  pose proof
    (shr_fexp_nonneg
       (round_nearest_even (shr_m mrs') (loc_of_shr_record mrs')) e' loc_Exact
       (round_nearest_even_nonneg _ _ H1)) as H2.
  destruct (shr_fexp Js.prec Js.emax
              (round_nearest_even (shr_m mrs') (loc_of_shr_record mrs'))
              e' loc_Exact) as [mrs'' e''].
  cbn [fst] in H2.
  destruct (shr_m mrs'') as [| p | p]; [reflexivity | | lia].
  destruct (e'' <=? Js.emax - Js.prec); reflexivity.
Qed.

Lemma mul_nonneg (x : Js.number) (mc : positive) (ec : Z) :
  nonneg x = true -> nonneg (x * S754_finite false mc ec)%js = true.
Proof.
  destruct x as [s | [|] | | [|] m e]; cbn [nonneg negb]; try discriminate;
    intros _; try reflexivity.
  unfold Js.mul. cbn [SFmul xorb]. apply binary_round_aux_nonneg. lia.
Qed.

Lemma add_nonneg (x y : Js.number) :
  nonneg x = true -> nonneg y = true -> nonneg (x + y)%js = true.
Proof.
  destruct x as [s | [|] | | [|] m e]; cbn [nonneg negb]; try discriminate;
    destruct y as [s' | [|] | | [|] m' e']; cbn [nonneg negb];
    try discriminate; intros _ _; try reflexivity.
  - destruct s, s'; reflexivity.
  - unfold Js.add. cbn [SFadd cond_Zopp]. cbv zeta.
    destruct (shl_align m e (Z.min e e')) as [a ea].
    destruct (shl_align m' e' (Z.min e e')) as [b eb].
    cbn [fst]. cbn [Z.add binary_normalize]. unfold binary_round.
    destruct (shl_align (a + b) (Z.min e e')
                (fexp Js.prec Js.emax
                   (Z.pos (digits2_pos (a + b)) + Z.min e e'))) as [mz ez].
    apply binary_round_aux_nonneg. lia.
Qed.

Lemma or_else_nonneg (x : Js.number) :
  nonneg (Js.or_else x lit_0) = true
  <-> (Js.is_nan x = true \/ nonneg x = true).
Proof.
  destruct x as [s | [|] | | [|] m e]; cbn; intuition discriminate.
Qed.

Lemma nonneg_number (x : Js.number) : nonneg x = true -> Js.is_nan x = false.
Proof. destruct x; cbn; (discriminate || reflexivity). Qed.

Lemma lit_0_2_finite : lit_0_2 = S754_finite false 7205759403792794 (-55).
Proof. reflexivity. Qed.

Lemma lit_0_3_finite : lit_0_3 = S754_finite false 5404319552844595 (-54).
Proof. reflexivity. Qed.

Lemma lit_0_4_finite : lit_0_4 = S754_finite false 7205759403792794 (-54).
Proof. reflexivity. Qed.

Lemma weighted_nonneg (a b e : Js.number) :
  nonneg e = true ->
  (nonneg a = true -> nonneg b = true ->
   nonneg (a * lit_0_3 + b * lit_0_2 + e * lit_0_5)%js = true)
  /\ (nonneg a = true -> nonneg (a * lit_0_4 + e * lit_0_6)%js = true).
Proof.
  intros He. rewrite lit_0_2_finite, lit_0_3_finite, lit_0_4_finite,
    lit_0_5_finite, lit_0_6_finite.
  split; intros; repeat apply add_nonneg; now apply mul_nonneg.
Qed.

(** X18: marks that are not negative never give NaN.  When every mark
    that is present parses to a number that is not negative (an infinity
    included), the component's average is a number and is not negative
    provided the exam parses to such a number or does not parse at all;
    the page's displayed average reads back as a number provided the exam
    parses to such a number. *)
Theorem nonnegative_marks_give_a_number (cc tp exam : value) :
  (present cc = true -> nonneg (parseFloat cc) = true) ->
  (present tp = true -> nonneg (parseFloat tp) = true) ->
  (Js.is_nan (parseFloat exam) = true \/ nonneg (parseFloat exam) = true) ->
  nonneg (calculateAverage cc tp exam) = true
  /\ (nonneg (parseFloat exam) = true ->
      Js.is_nan
        (parseFloat (Str (calculerMoyenne (mk_notes cc tp exam)))) = false).
Proof.
  intros Hcc Htp Hex. split.
  - rewrite calculateAverage_cases.
    apply or_else_nonneg in Hex. fold (exam_component exam) in Hex.
    destruct (weighted_nonneg (parseFloat cc) (parseFloat tp)
                (exam_component exam) Hex) as [H3 H2].
    destruct (weighted_nonneg (parseFloat tp) (parseFloat tp)
                (exam_component exam) Hex) as [_ H2'].
    destruct (present cc), (present tp); cbn [andb]; auto.
  - intros He. unfold parseFloat at 1. cbn [ToString].
    rewrite calculerMoyenne_sum, toFixed_read_back.
    apply nonneg_number. unfold page_sum, exam_page.
    destruct (weighted_nonneg (parseFloat cc) (parseFloat tp)
                (parseFloat exam) He) as [H3 H2].
    destruct (weighted_nonneg (parseFloat tp) (parseFloat tp)
                (parseFloat exam) He) as [_ H2'].
    destruct (present cc), (present tp); cbn [andb]; auto.
Qed.

Lemma nonnegative_marks_give_a_number_witness :
  nonneg (calculateAverage (Str "12") blank (Str "9.5")) = true
  /\ (nonneg (parseFloat (Str "9.5")) = true ->
      Js.is_nan
        (parseFloat
           (Str (calculerMoyenne (mk_notes (Str "12") blank (Str "9.5")))))
      = false).
Proof.
  apply (nonnegative_marks_give_a_number (Str "12") blank (Str "9.5")).
  - intros _. vm_compute; reflexivity.
  - vm_compute. discriminate.
  - right. vm_compute; reflexivity.
Defined.

End NonNegative.

(** ** The table and the statistics *)

Section TableAndStatistics.

Import Page.

Lemma render_row_average (g : grade) (i : nat) :
  parseFloat (Str (row_avg (render_row g i))) = page_average g.
Proof. reflexivity. Qed.

Lemma render_row_validated (g : grade) (i : nat) :
  written_validated (render_row g i) = (page_average g >= lit_10)%js.
Proof.
  unfold written_validated, render_row. cbv zeta. cbn [row_class].
  unfold getStyleMoyenne. cbv zeta. fold (mk_notes (cc g) (tp g) (exam g)).
  fold (page_average g). pose proof (ge_16_10 (page_average g)) as H.
  destruct (page_average g >= lit_16)%js;
    [now rewrite (H eq_refl) |].
  destruct (page_average g >= lit_10)%js; [reflexivity |].
  destruct (page_average g >= lit_8)%js; reflexivity.
Qed.

Lemma lt_ge_nan (x c : Js.number) :
  Js.is_nan c = false ->
  (x < c)%js = negb (x >= c)%js && negb (Js.is_nan x).
Proof.
  intros Hc. destruct x as [s | s | | s m e];
    try (rewrite lt_not_ge by (reflexivity || assumption);
         now rewrite andb_true_r).
  unfold Js.lt, Js.ge. destruct c; reflexivity.
Qed.

Lemma render_row_danger (g : grade) (i : nat) :
  written_danger (render_row g i) && written_number (render_row g i)
  = (page_average g < lit_8)%js.
Proof.
  unfold written_number. rewrite render_row_average.
  rewrite (lt_ge_nan (page_average g) lit_8) by reflexivity. f_equal.
  unfold written_danger, render_row. cbv zeta. cbn [row_class].
  unfold getStyleMoyenne. cbv zeta. fold (mk_notes (cc g) (tp g) (exam g)).
  fold (page_average g).
  pose proof (ge_16_10 (page_average g)) as H1.
  pose proof (ge_10_8 (page_average g)) as H2.
  destruct (page_average g >= lit_16)%js;
    [now rewrite (H2 (H1 eq_refl)) |].
  destruct (page_average g >= lit_10)%js; [now rewrite (H2 eq_refl) |].
  destruct (page_average g >= lit_8)%js; reflexivity.
Qed.

Lemma count_rows_from (p : row -> bool) (q : grade -> bool) (gs : list grade) :
  (forall g i, p (render_row g i) = q g) ->
  forall i, count p (rows_from gs i) = count q gs.
Proof.
  intros H. induction gs as [| g gs IH]; intros i; [reflexivity |].
  cbn [rows_from count]. now rewrite H, IH.
Qed.

(** X19: on the page the statistics agree with the badges that
    [renderTable] writes.  After the load and any sequence of events, when
    the collection is not empty, the validated count is the number of rows
    written with the class of the good or of the excellent badge, and the
    danger count is the number of rows written with the class of the
    danger badge and an average that reads back as a number: a row written
    with the average NaN gets the class of the danger badge and is counted
    nowhere.  The rows are counted by what [renderTable] put in their
    template, not by what a browser builds from it. *)
Theorem statistics_count_written_badges (es : list event) (a0 : app) :
  let a := run es (renderTable a0) in
  grades (view a) <> [] ->
  validatedCountEl (view a)
  = string_of_nat (count written_validated (gradesTableBody a))
  /\ dangerCountEl (view a)
     = string_of_nat
         (count (fun r => written_danger r && written_number r)
            (gradesTableBody a)).
Proof.
  intros a Hne.
  assert (Ha : renderTable a = a)
    by (apply run_rendered, renderTable_idempotent).
  destruct (rendered_facts a Ha) as (Hv & Hr & _).
  destruct (updateStats_nonempty (view a) Hne) as (_ & Hval & Hdan).
  rewrite <- Hv in Hval, Hdan. rewrite Hval, Hdan, Hr.
  rewrite (count_rows_from written_validated
             (fun g => (page_average g >= lit_10)%js) _ render_row_validated).
  rewrite (count_rows_from (fun r => written_danger r && written_number r)
             (fun g => (page_average g < lit_8)%js) _ render_row_danger).
  split; reflexivity.
Qed.

Lemma statistics_count_written_badges_witness :
  let a :=
    run
      [Add "Algebre" "2" "12" "14" "10";
       Add "Analyse" "1" EmptyString EmptyString "abs"]
      (renderTable
         {| view := fresh_page []; gradesTableBody := [];
            emptyState_display := "none"; gradeData := None |}) in
  validatedCountEl (view a)
  = string_of_nat (count written_validated (gradesTableBody a))
  /\ dangerCountEl (view a)
     = string_of_nat
         (count (fun r => written_danger r && written_number r)
            (gradesTableBody a)).
Proof.
  apply (statistics_count_written_badges
           [Add "Algebre" "2" "12" "14" "10";
            Add "Analyse" "1" EmptyString EmptyString "abs"]
           {| view := fresh_page []; gradesTableBody := [];
              emptyState_display := "none"; gradeData := None |}).
  discriminate.
Defined.

End TableAndStatistics.

(** ** What the aggregate reads *)

(** X20: the aggregate reads the three marks and the coefficient of each
    entry, in order, and nothing else.  Two collections that agree on
    these four fields, entry by entry, whatever their subjects and ids,
    give the component the same two sums, the same general average and the
    same two counts, and give the page the same three statistics texts,
    whatever the page displayed before; when they are not empty the page
    also gives the general average the same colour. *)
Theorem aggregate_reads_marks_and_coefficients (gs gs' : list grade) :
  map marks gs = map marks gs' ->
  (totalCoef gs = totalCoef gs'
   /\ totalPoints gs = totalPoints gs'
   /\ generalAvg gs = generalAvg gs'
   /\ validatedCount gs = validatedCount gs'
   /\ dangerCount gs = dangerCount gs')
  /\ (forall p p' : page,
         grades p = gs -> grades p' = gs' ->
         generalAverageEl (updateStats p) = generalAverageEl (updateStats p')
         /\ validatedCountEl (updateStats p) = validatedCountEl (updateStats p')
         /\ dangerCountEl (updateStats p) = dangerCountEl (updateStats p')
         /\ (gs <> [] ->
             generalAverageEl_color (updateStats p)
             = generalAverageEl_color (updateStats p'))).
Proof.
  intros H. split.
  - assert (Hc : totalCoef gs = totalCoef gs').
    { rewrite !totalCoef_sum. now rewrite (coefs_by_marks gs gs' H). }
    assert (Hp : totalPoints gs = totalPoints gs').
    { rewrite !totalPoints_sum.
      now rewrite (component_points_by_marks gs gs' H). }
    repeat split; trivial.
    + unfold generalAvg. now rewrite Hc, Hp.
    + rewrite !validatedCount_count.
      apply (component_counts_by_marks (fun x => (x >= lit_10)%js) gs gs' H).
    + rewrite !dangerCount_count.
      apply (component_counts_by_marks (fun x => (x < lit_8)%js) gs gs' H).
  - intros p p' E E'. subst gs gs'.
    destruct (grades p) as [| g gs] eqn:Eg, (grades p') as [| g' gs'] eqn:Eg';
      try discriminate.
    + destruct (updateStats_empty p Eg) as (-> & -> & ->).
      destruct (updateStats_empty p' Eg') as (-> & -> & ->).
      repeat split; try reflexivity. intros Hne; now elim Hne.
    + assert (Hne : grades p <> []) by (rewrite Eg; discriminate).
      assert (Hne' : grades p' <> []) by (rewrite Eg'; discriminate).
      rewrite (updateStats_colour p Hne), (updateStats_colour p' Hne').
      destruct (updateStats_nonempty p Hne) as (-> & -> & ->).
      destruct (updateStats_nonempty p' Hne') as (-> & -> & ->).
      rewrite Eg, Eg'.
      rewrite (coefs_by_marks _ _ H), (page_points_by_marks _ _ H).
      rewrite (page_counts_by_marks (fun x => (x >= lit_10)%js) _ _ H).
      rewrite (page_counts_by_marks (fun x => (x < lit_8)%js) _ _ H).
      repeat split; reflexivity.
Qed.

Lemma aggregate_reads_marks_and_coefficients_witness :
  (totalCoef renamed_grades = totalCoef missing_exam_grades
   /\ totalPoints renamed_grades = totalPoints missing_exam_grades
   /\ generalAvg renamed_grades = generalAvg missing_exam_grades
   /\ validatedCount renamed_grades = validatedCount missing_exam_grades
   /\ dangerCount renamed_grades = dangerCount missing_exam_grades)
  /\ (forall p p' : page,
         grades p = renamed_grades -> grades p' = missing_exam_grades ->
         generalAverageEl (updateStats p) = generalAverageEl (updateStats p')
         /\ validatedCountEl (updateStats p) = validatedCountEl (updateStats p')
         /\ dangerCountEl (updateStats p) = dangerCountEl (updateStats p')
         /\ (renamed_grades <> [] ->
             generalAverageEl_color (updateStats p)
             = generalAverageEl_color (updateStats p'))).
Proof.
  apply (aggregate_reads_marks_and_coefficients
           renamed_grades missing_exam_grades).
  reflexivity.
Defined.
